(** * Recommendation scoring and ranking engine

    A shallow embedding of [RecommendationEngine] from
    [fastapi_service/core/ai_agents.py], and the properties of its
    scoring, ranking and explanation pipeline.

    Conventions of the embedding:
    - a Python [float] is an exact rational ([Q]); equality of scores is
      [Qeq], as Python compares floats by value; the rounding of the
      float arithmetic is not modelled, so numeric bounds are stated with
      a margin wherever a rounded result could cross them;
    - a Python [int] is a [Z];
    - a Python [str] is a [string] whose characters are the code points
      below 256;
    - the embedding model and the text-generation client are fields of
      the engine object; a call that raises is a call that answers [None];
    - every call to a collaborator is recorded in a trace, which is the
      state threaded through the asynchronous methods. *)

From Stdlib Require Import QArith Qminmax ZArith String Ascii List Bool.
From Stdlib Require Import DecimalString.
From Stdlib Require Import Lia Lqa Permutation Sorted.
Import ListNotations.

Local Open Scope string_scope.
Local Open Scope Q_scope.

(** ** Python built-ins used by the engine *)

Module Py.

(** [min(a, b)] on floats: [b] when [b < a], otherwise [a]. *)
Definition min (a b : Q) : Q := if Qle_bool a b then a else b.

(** [min] and [max] on integers. *)
Definition zmin (a b : Z) : Z := if (a <=? b)%Z then a else b.
Definition zmax (a b : Z) : Z := if (b <=? a)%Z then a else b.

(** [int(x)] on a float: truncation towards zero. *)
Definition int (x : Q) : Z := Z.quot (Qnum x) (Zpos (Qden x)).

(** [d.get(key, default)] on a dict given by its items. *)
Fixpoint get {V : Type} (d : list (string * V)) (key : string) (default : V) : V :=
  match d with
  | [] => default
  | (k, v) :: d' => if String.eqb k key then v else get d' key default
  end.

(** [c.isspace()] for a code point below 256. *)
Definition isspace (c : ascii) : bool :=
  let n := nat_of_ascii c in
  ((9 <=? n) && (n <=? 13) || (28 <=? n) && (n <=? 32)
   || (n =? 133) || (n =? 160))%nat.

(** [c.lower()] for a code point below 256. *)
Definition lower_char (c : ascii) : ascii :=
  let n := nat_of_ascii c in
  if ((65 <=? n) && (n <=? 90) || (192 <=? n) && (n <=? 214)
      || (216 <=? n) && (n <=? 222))%nat
  then ascii_of_nat (n + 32) else c.

(** [s.lower()]. *)
Fixpoint lower (s : string) : string :=
  match s with
  | EmptyString => EmptyString
  | String c s' => String (lower_char c) (lower s')
  end.

(** [s.split()]: the maximal runs of non-whitespace characters.  [cur]
    is the run being read. *)
Fixpoint split_from (s cur : string) : list string :=
  match s with
  | EmptyString => match cur with EmptyString => [] | _ => [cur] end
  | String c s' =>
      if isspace c
      then match cur with
           | EmptyString => split_from s' EmptyString
           | _ => cur :: split_from s' EmptyString
           end
      else split_from s' (cur ++ String c EmptyString)
  end.

Definition split (s : string) : list string := split_from s EmptyString.

(** [s.strip()]. *)
Fixpoint lstrip (s : string) : string :=
  match s with
  | EmptyString => EmptyString
  | String c s' => if isspace c then lstrip s' else s
  end.

Fixpoint rstrip (s : string) : string :=
  match s with
  | EmptyString => EmptyString
  | String c s' =>
      match rstrip s' with
      | EmptyString => if isspace c then EmptyString else String c EmptyString
      | r => String c r
      end
  end.

Definition strip (s : string) : string := rstrip (lstrip s).

(** [sep.join(parts)]. *)
Fixpoint join (sep : string) (parts : list string) : string :=
  match parts with
  | [] => EmptyString
  | [p] => p
  | p :: ps => p ++ sep ++ join sep ps
  end.

(** [sub in s] on strings: [sub] occurs in [s] as a substring. *)
Fixpoint contains (sub s : string) : bool :=
  String.prefix sub s
  || match s with
     | EmptyString => false
     | String _ s' => contains sub s'
     end.

(** [sum(1 for x in xs if test(x))]: the generator adds one per element
    that passes the test, left to right. *)
Definition sum_ones {A : Type} (test : A -> bool) (xs : list A) : Z :=
  fold_left (fun acc x => if test x then (acc + 1)%Z else acc) xs 0%Z.

(** [a / b] with two integers: true division, a float; [None] is
    [ZeroDivisionError]. *)
Definition truediv (a b : Z) : option Q :=
  if (b =? 0)%Z then None else Some (inject_Z a / inject_Z b).

Definition newline : string := String (ascii_of_nat 10) EmptyString.

(** [a < b] on floats. *)
Definition lt (a b : Q) : bool := negb (Qle_bool b a).

End Py.

(** ** Data model: the three dataclasses *)

Record UserContext := {
  user_id : string;
  activity_patterns : list (string * string);
  skill_level : string;
  preferences : list (string * string);
  goals : list string;
  work_domain : string;
  tools_used : list string;
  productivity_score : Q
}.

Record AITool := {
  id : string;
  name : string;
  category : string;
  description : string;
  capabilities : list string;
  pricing_model : string;
  difficulty_level : string;
  integration_complexity : Z;
  user_rating : Q;
  use_cases : list string
}.

Record Recommendation := {
  tool_id : string;
  relevance_score : Q;
  confidence : Q;
  reasoning : string;
  implementation_complexity : Z;
  expected_impact : string;
  learning_time_hours : Z
}.

(** The part of [pattern_insights] the engine reads: the value under the
    key ['skill_gaps'], when the key is present. *)
Record PatternInsights := {
  skill_gaps : option (list string)
}.

(** ** Effects: collaborator calls, exceptions and the call trace *)

Inductive event :=
| EncodeCall (text : string)
| MessagesCreateCall (prompt : string).

Definition trace := list event.

Inductive exn := EncodeError | MessagesCreateError | ZeroDivisionError.

Inductive outcome (A : Type) :=
| Returned (a : A)
| Raised (e : exn).
Arguments Returned {A} a.
Arguments Raised {A} e.

(** A method body: from the trace so far to an outcome and the extended
    trace. *)
Definition M (A : Type) := trace -> outcome A * trace.

Definition ret {A : Type} (a : A) : M A := fun tr => (Returned a, tr).

Definition bind {A B : Type} (m : M A) (k : A -> M B) : M B :=
  fun tr =>
    match m tr with
    | (Returned a, tr') => k a tr'
    | (Raised e, tr') => (Raised e, tr')
    end.

(** A computation without collaborator calls, which may still raise. *)
Definition pure {A : Type} (o : outcome A) : M A := fun tr => (o, tr).

(** [try: body / except Exception: handler]. *)
Definition try_except {A : Type} (body : M A) (handler : exn -> M A) : M A :=
  fun tr =>
    match body tr with
    | (Returned a, tr') => (Returned a, tr')
    | (Raised e, tr') => handler e tr'
    end.

Notation "x <- m ;; k" := (bind m (fun x => k))
  (at level 61, m at next level, right associativity).

(** The engine object: its two collaborators.  The text client may answer
    differently at each call, so it reads the trace; it answers the text
    of [response.content[0].text], or [None] when the call raises. *)
Record RecommendationEngine := {
  client : trace -> string -> option string;
  embedding_model : string -> option (list Q)
}.

(** [self.embedding_model.encode(text)]. *)
Definition encode (self : RecommendationEngine) (text : string) : M (list Q) :=
  fun tr =>
    match embedding_model self text with
    | Some v => (Returned v, (tr ++ [EncodeCall text])%list)
    | None => (Raised EncodeError, (tr ++ [EncodeCall text])%list)
    end.

(** [await self.client.messages.create(...)], then the text of the first
    content block. *)
Definition messages_create (self : RecommendationEngine) (prompt : string) : M string :=
  fun tr =>
    match client self tr prompt with
    | Some text => (Returned text, (tr ++ [MessagesCreateCall prompt])%list)
    | None => (Raised MessagesCreateError, (tr ++ [MessagesCreateCall prompt])%list)
    end.

(** The number of text-generation calls recorded in a trace. *)
Definition is_text_call (e : event) : bool :=
  match e with MessagesCreateCall _ => true | EncodeCall _ => false end.

Definition text_calls (tr : trace) : nat := length (filter is_text_call tr).

(** ** Sorting: [list.sort(key=..., reverse=True)]

    Python's sort is stable, also with [reverse=True]; on a total order the
    result of a stable sort is unique, and insertion from the right
    computes it. *)

Section Sort.
Context {A : Type} (key : A -> Q).

Definition key_lt (x y : A) : bool := negb (Qle_bool (key y) (key x)).

Fixpoint insert_reverse (x : A) (l : list A) : list A :=
  match l with
  | [] => [x]
  | y :: l' => if key_lt x y then y :: insert_reverse x l' else x :: l
  end.

Definition sort_reverse (l : list A) : list A :=
  fold_right insert_reverse [] l.

(** Descending order of the keys, each element against all later ones. *)
Definition descending (l : list A) : Prop :=
  StronglySorted (fun x y => key y <= key x) l.
End Sort.

(** ** The recommendation engine *)

Section Engine.

(** Float functions of the numeric libraries and of the language, which
    have no rational counterpart: [sklearn]'s cosine similarity of two
    vectors, [str] of a float inside an f-string, and the format
    [:.2f]. *)
Variable cosine_similarity : list Q -> list Q -> Q.
Variable float_str : Q -> string.
Variable format_2f : Q -> string.

Variable self : RecommendationEngine.

Definition _create_user_profile (user_context : UserContext)
    (pattern_insights : PatternInsights) : string :=
  let profile_parts :=
    [ "User skill level: " ++ skill_level user_context;
      "Work domain: " ++ work_domain user_context;
      "Current tools: " ++ Py.join ", " (tools_used user_context);
      "Goals: " ++ Py.join ", " (goals user_context);
      "Productivity score: " ++ float_str (productivity_score user_context) ] in
  let profile_parts :=
    match skill_gaps pattern_insights with
    | Some (g :: gs) =>
        List.app profile_parts [ "Skill gaps: " ++ Py.join ", " (g :: gs) ]
    | _ => profile_parts
    end in
  Py.join " " profile_parts.

Definition _calculate_skill_match (tool : AITool) (user_context : UserContext) : Q :=
  let skill_levels := [("beginner", 1%Z); ("intermediate", 2%Z); ("advanced", 3%Z)] in
  let user_level := Py.get skill_levels (skill_level user_context) 1%Z in
  let tool_level := Py.get skill_levels (difficulty_level tool) 2%Z in
  if (tool_level =? user_level + 1)%Z then 1.0
  else if (tool_level =? user_level)%Z then 0.8
  else if (tool_level =? user_level - 1)%Z then 0.6
  else 0.3.

Definition _calculate_domain_relevance (tool : AITool) (user_context : UserContext)
    : outcome Q :=
  let domain_keywords := Py.split (Py.lower (work_domain user_context)) in
  let tool_text := Py.lower (category tool ++ " " ++ Py.join " " (use_cases tool)) in
  let matches :=
    Py.sum_ones (fun keyword => Py.contains keyword tool_text) domain_keywords in
  match domain_keywords with
  | [] => Returned 0.5
  | _ =>
      match Py.truediv matches (Z.of_nat (length domain_keywords)) with
      | Some ratio => Returned (Py.min ratio 1.0)
      | None => Raised ZeroDivisionError
      end
  end.

(** The loop over [tools_used] has an empty body. *)
Definition _calculate_tool_compatibility (tool : AITool) (user_context : UserContext) : Q :=
  0.7.

Definition tool_profile (tool : AITool) : string :=
  name tool ++ " " ++ description tool ++ " "
  ++ Py.join " " (capabilities tool) ++ " " ++ Py.join " " (use_cases tool).

Definition _calculate_relevance_score (tool : AITool) (user_context : UserContext)
    (pattern_insights : PatternInsights) (user_embedding : list Q) : M Q :=
  tool_embedding <- encode self (tool_profile tool) ;;
  let semantic_similarity := cosine_similarity user_embedding tool_embedding in
  let skill_match := _calculate_skill_match tool user_context in
  domain_relevance <- pure (_calculate_domain_relevance tool user_context) ;;
  let tool_compatibility := _calculate_tool_compatibility tool user_context in
  let relevance_score :=
    semantic_similarity * 0.3 +
    skill_match * 0.25 +
    domain_relevance * 0.25 +
    tool_compatibility * 0.2 in
  ret (Py.min relevance_score 1.0).

(** The text of the f-string sent to the text client. *)
Definition reasoning_prompt (tool : AITool) (user_context : UserContext)
    (relevance_score : Q) : string :=
  let indent := "            " in
  let line (text : string) := indent ++ text ++ Py.newline in
  Py.newline
  ++ line ("Explain why " ++ name tool ++ " is recommended for this user in 2-3 sentences:")
  ++ line ""
  ++ line ("Tool: " ++ name tool)
  ++ line ("Description: " ++ description tool)
  ++ line ("Capabilities: " ++ Py.join ", " (capabilities tool))
  ++ line ""
  ++ line "User Context:"
  ++ line ("- Skill Level: " ++ skill_level user_context)
  ++ line ("- Work Domain: " ++ work_domain user_context)
  ++ line ("- Goals: " ++ Py.join ", " (goals user_context))
  ++ line ("- Current Tools: " ++ Py.join ", " (tools_used user_context))
  ++ line ""
  ++ line ("Relevance Score: " ++ format_2f relevance_score)
  ++ line ""
  ++ line "Provide a clear, actionable explanation."
  ++ indent.

(** The string returned by the [except] branch of [_generate_reasoning]. *)
Definition fallback_reasoning (user_context : UserContext) : string :=
  "Recommended based on relevance to your " ++ work_domain user_context
  ++ " work and " ++ skill_level user_context ++ " skill level.".

Definition _generate_reasoning (tool : AITool) (user_context : UserContext)
    (relevance_score : Q) : M string :=
  try_except
    (let prompt := reasoning_prompt tool user_context relevance_score in
     text <- messages_create self prompt ;;
     ret (Py.strip text))
    (fun e => ret (fallback_reasoning user_context)).

Definition _calculate_implementation_complexity (tool : AITool)
    (user_context : UserContext) : Z :=
  let base_complexity := integration_complexity tool in
  let skill_adjustment :=
    [("beginner", 1%Z); ("intermediate", 0%Z); ("advanced", (-1)%Z)] in
  let adjusted_complexity :=
    (base_complexity + Py.get skill_adjustment (skill_level user_context) 0)%Z in
  Py.zmax 1 (Py.zmin 5 adjusted_complexity).

Definition _predict_impact (tool : AITool) (user_context : UserContext) : M string :=
  if Py.lt (productivity_score user_context) 0.6 && Py.lt 4.5 (user_rating tool)
  then ret "High"
  else if Py.lt (productivity_score user_context) 0.8
  then ret "Medium"
  else ret "Low".

Definition _estimate_learning_time (tool : AITool) (user_context : UserContext) : Z :=
  let base_time := [("beginner", 8%Z); ("intermediate", 4%Z); ("advanced", 2%Z)] in
  let difficulty_multiplier :=
    [("beginner", 1.0); ("intermediate", 1.5); ("advanced", 2.0)] in
  let base := Py.get base_time (skill_level user_context) 6%Z in
  let multiplier := Py.get difficulty_multiplier (difficulty_level tool) 1.5 in
  Py.int (inject_Z base * multiplier).

(** The body of [for tool in available_tools], with the list
    [recommendations] it appends to. *)
Fixpoint score_tools (user_context : UserContext) (pattern_insights : PatternInsights)
    (user_embedding : list Q) (available_tools : list AITool)
    (recommendations : list Recommendation) : M (list Recommendation) :=
  match available_tools with
  | [] => ret recommendations
  | tool :: rest =>
      relevance_score <-
        _calculate_relevance_score tool user_context pattern_insights user_embedding ;;
      reasoning <- _generate_reasoning tool user_context relevance_score ;;
      let complexity := _calculate_implementation_complexity tool user_context in
      impact <- _predict_impact tool user_context ;;
      let learning_time := _estimate_learning_time tool user_context in
      let recommendation :=
        {| tool_id := id tool;
           relevance_score := relevance_score;
           confidence := Py.min (relevance_score * 1.2) 1.0;
           reasoning := reasoning;
           implementation_complexity := complexity;
           expected_impact := impact;
           learning_time_hours := learning_time |} in
      score_tools user_context pattern_insights user_embedding rest
        (recommendations ++ [recommendation])%list
  end.

Definition generate_recommendations (user_context : UserContext)
    (pattern_insights : PatternInsights) (available_tools : list AITool)
    : M (list Recommendation) :=
  try_except
    (let user_profile := _create_user_profile user_context pattern_insights in
     user_embedding <- encode self user_profile ;;
     recommendations <-
       score_tools user_context pattern_insights user_embedding available_tools [] ;;
     let recommendations := sort_reverse relevance_score recommendations in
     ret (firstn 10 recommendations))
    (fun e => ret []).

End Engine.

(** ** Definitions that follow the specification's words *)

Module Spec.

(** The rank of a level: beginner 1, intermediate 2, advanced 3. *)
Definition level_rank (level : string) : option Z :=
  if String.eqb level "beginner" then Some 1%Z
  else if String.eqb level "intermediate" then Some 2%Z
  else if String.eqb level "advanced" then Some 3%Z
  else None.

(** The skill-match table on the difference of two ranks. *)
Definition skill_match_of_diff (diff : Z) : Q :=
  if (diff =? 1)%Z then 1.0
  else if (diff =? 0)%Z then 0.8
  else if (diff =? -1)%Z then 0.6
  else 0.3.

(** The tokens of the work domain and the text they are looked up in. *)
Definition domain_tokens (user_context : UserContext) : list string :=
  Py.split (Py.lower (work_domain user_context)).

Definition domain_text (tool : AITool) : string :=
  Py.lower (category tool ++ " " ++ Py.join " " (use_cases tool)).

(** The number of tokens that occur in the text, over the number of
    tokens, capped at 1; one half when there is no token. *)
Definition domain_relevance (tool : AITool) (user_context : UserContext) : Q :=
  let tokens := domain_tokens user_context in
  let matches :=
    length (filter (fun token => Py.contains token (domain_text tool)) tokens) in
  match tokens with
  | [] => 0.5
  | _ => Qmin (inject_Z (Z.of_nat matches) / inject_Z (Z.of_nat (length tokens))) 1.0
  end.

(** The weighted sum of the four terms, capped at 1. *)
Definition relevance (semantic_similarity skill_match domain_relevance
    tool_compatibility : Q) : Q :=
  Qmin (0.30 * semantic_similarity + 0.25 * skill_match
        + 0.25 * domain_relevance + 0.20 * tool_compatibility) 1.0.

End Spec.

(** ** Record updates and predicates used in the statements *)

Definition with_skill_level (user_context : UserContext) (level : string) : UserContext :=
  {| user_id := user_id user_context;
     activity_patterns := activity_patterns user_context;
     skill_level := level;
     preferences := preferences user_context;
     goals := goals user_context;
     work_domain := work_domain user_context;
     tools_used := tools_used user_context;
     productivity_score := productivity_score user_context |}.

Definition with_difficulty_level (tool : AITool) (level : string) : AITool :=
  {| id := id tool;
     name := name tool;
     category := category tool;
     description := description tool;
     capabilities := capabilities tool;
     pricing_model := pricing_model tool;
     difficulty_level := level;
     integration_complexity := integration_complexity tool;
     user_rating := user_rating tool;
     use_cases := use_cases tool |}.

Definition known_level (level : string) : Prop :=
  level = "beginner" \/ level = "intermediate" \/ level = "advanced".

(** [l1] is an initial segment of [l2]. *)
Definition prefix_of {A : Type} (l1 l2 : list A) : Prop :=
  exists rest, l2 = (l1 ++ rest)%list.

(** The recommendations of a list whose score has the value [s]. *)
Definition with_score (s : Q) (l : list Recommendation) : list Recommendation :=
  filter (fun r => Qeq_bool (relevance_score r) s) l.

(** [r] is the recommendation that the loop body of
    [generate_recommendations] builds for [tool]: the tool's embedding was
    computed, and every field has the value the code gives it. *)
Definition scored_as (cosine_similarity : list Q -> list Q -> Q)
    (format_2f : Q -> string) (self : RecommendationEngine)
    (user_context : UserContext) (user_embedding : list Q)
    (tool : AITool) (r : Recommendation) : Prop :=
  exists tool_embedding domain_relevance tr,
    embedding_model self (tool_profile tool) = Some tool_embedding /\
    _calculate_domain_relevance tool user_context = Returned domain_relevance /\
    tool_id r = id tool /\
    relevance_score r =
      Py.min (cosine_similarity user_embedding tool_embedding * 0.3
              + _calculate_skill_match tool user_context * 0.25
              + domain_relevance * 0.25
              + _calculate_tool_compatibility tool user_context * 0.2) 1.0 /\
    confidence r = Py.min (relevance_score r * 1.2) 1.0 /\
    reasoning r =
      match client self tr
              (reasoning_prompt format_2f tool user_context (relevance_score r)) with
      | Some text => Py.strip text
      | None => fallback_reasoning user_context
      end /\
    implementation_complexity r = _calculate_implementation_complexity tool user_context /\
    _predict_impact tool user_context tr = (Returned (expected_impact r), tr) /\
    learning_time_hours r = _estimate_learning_time tool user_context.

(** ** Concrete collaborators, users and catalogs *)

Module Sample.

(** Cosine similarity of one-dimensional vectors: the sign of the
    product of the two coordinates. *)
Definition cosine_1d (u v : list Q) : Q :=
  match u, v with
  | [a], [b] =>
      if Py.lt 0 (a * b) then 1 else if Py.lt (a * b) 0 then -1 else 0
  | _, _ => 0
  end.

(** A rational printed with [d] decimals, the last one rounded half to
    even. *)
Definition fixed_point (d : nat) (q : Q) : string :=
  let scale := (10 ^ Z.of_nat d)%Z in
  let num := (Z.abs (Qnum q) * scale)%Z in
  let den := Zpos (Qden q) in
  let n := (num / den)%Z in
  let twice_rest := (2 * (num mod den))%Z in
  let n := if (den <? twice_rest)%Z then (n + 1)%Z
           else if (twice_rest =? den)%Z && Z.odd n then (n + 1)%Z
           else n in
  let digits (z : Z) := NilZero.string_of_uint (N.to_uint (Z.to_N z)) in
  let frac := digits (n mod scale)%Z in
  let zeros := List.repeat "0" (d - String.length frac) in
  (if (Qnum q <? 0)%Z then "-" else "")
  ++ digits (n / scale)%Z ++ "." ++ Py.join "" zeros ++ frac.

Definition float_str : Q -> string := fixed_point 1.
Definition format_2f : Q -> string := fixed_point 2.

(** The two tools of [_get_curated_tools]. *)
Definition gpt4 : AITool :=
  {| id := "gpt4";
     name := "GPT-4";
     category := "writing";
     description := "Advanced language model for content creation";
     capabilities := ["text_generation"; "editing"; "summarization"];
     pricing_model := "usage_based";
     difficulty_level := "beginner";
     integration_complexity := 2;
     user_rating := 4.8;
     use_cases := ["writing"; "brainstorming"; "analysis"] |}.

Definition claude3 : AITool :=
  {| id := "claude3";
     name := "Claude 3";
     category := "analysis";
     description := "Advanced AI for complex reasoning and analysis";
     capabilities := ["reasoning"; "analysis"; "code_review"];
     pricing_model := "usage_based";
     difficulty_level := "intermediate";
     integration_complexity := 3;
     user_rating := 4.7;
     use_cases := ["research"; "code_review"; "strategic_planning"] |}.

(** Two more catalog entries: an advanced tool and one whose difficulty
    is not a known level. *)
Definition kubeflow : AITool :=
  {| id := "kubeflow";
     name := "Kubeflow";
     category := "mlops";
     description := "Machine learning pipelines on Kubernetes";
     capabilities := ["pipelines"; "serving"];
     pricing_model := "open_source";
     difficulty_level := "advanced";
     integration_complexity := 5;
     user_rating := 4.1;
     use_cases := ["training"; "deployment"] |}.

Definition whisper : AITool :=
  {| id := "whisper";
     name := "Whisper";
     category := "speech";
     description := "Speech recognition model";
     capabilities := ["transcription"];
     pricing_model := "open_source";
     difficulty_level := "expert";
     integration_complexity := 3;
     user_rating := 4.4;
     use_cases := ["meeting notes"; "captioning"] |}.

Definition security_tool : AITool :=
  {| id := "secscan";
     name := "SecScan";
     category := "security";
     description := "Security posture scanner";
     capabilities := ["scanning"];
     pricing_model := "subscription";
     difficulty_level := "intermediate";
     integration_complexity := 3;
     user_rating := 4.0;
     use_cases := ["cloud audits"] |}.

Definition analyst : UserContext :=
  {| user_id := "3f2a9c11d04e77b1";
     activity_patterns := [("focus_hours", "4")];
     skill_level := "intermediate";
     preferences := [("theme", "dark")];
     goals := ["automate reports"];
     work_domain := "Data Analysis";
     tools_used := ["excel"];
     productivity_score := 0.5 |}.

Definition novice : UserContext := with_skill_level analyst "beginner".

(** A user whose skill level is not a known level. *)
Definition guru : UserContext := with_skill_level analyst "expert".

Definition cloud_engineer : UserContext :=
  {| user_id := "9b1d44f0a2c3e5d7";
     activity_patterns := [];
     skill_level := "intermediate";
     preferences := [];
     goals := [];
     work_domain := "cloud security";
     tools_used := [];
     productivity_score := 0.7 |}.

Definition unset_domain : UserContext :=
  {| user_id := "9b1d44f0a2c3e5d7";
     activity_patterns := [];
     skill_level := "intermediate";
     preferences := [];
     goals := [];
     work_domain := "";
     tools_used := [];
     productivity_score := 0.7 |}.

Definition insights : PatternInsights := {| skill_gaps := Some ["sql"; "statistics"] |}.

(** Every text embeds to the same unit vector; the client answers. *)
Definition engine : RecommendationEngine :=
  {| client := fun _ _ => Some " A good fit for your reports.  ";
     embedding_model := fun _ => Some [1] |}.

(** The same, with a client that raises at every call. *)
Definition engine_no_text : RecommendationEngine :=
  {| client := fun _ _ => None;
     embedding_model := fun _ => Some [1] |}.

(** The embedding model raises on the profile of Claude 3. *)
Definition engine_no_claude : RecommendationEngine :=
  {| client := fun _ _ => Some "A good fit.";
     embedding_model := fun text =>
       if String.prefix "Claude 3" text then None else Some [1] |}.

(** The embedding model raises on the user profile. *)
Definition engine_no_user : RecommendationEngine :=
  {| client := fun _ _ => Some "A good fit.";
     embedding_model := fun text =>
       if String.prefix "User skill level" text then None else Some [1] |}.

(** Tool profiles embed opposite to the user profile. *)
Definition engine_opposed : RecommendationEngine :=
  {| client := fun _ _ => Some "A good fit.";
     embedding_model := fun text =>
       if String.prefix "User skill level" text then Some [1] else Some [-1] |}.

(** The profile of GPT-4 embeds like the user profile, the other tool
    profiles opposite to it. *)
Definition engine_mixed : RecommendationEngine :=
  {| client := fun _ _ => Some "A good fit.";
     embedding_model := fun text =>
       if String.prefix "User skill level" text || String.prefix "GPT-4" text
       then Some [1] else Some [-1] |}.

Definition catalog : list AITool := [gpt4; claude3; kubeflow; whisper].

Definition run (self : RecommendationEngine) (user_context : UserContext)
    (pattern_insights : PatternInsights) (available_tools : list AITool)
    : outcome (list Recommendation) * trace :=
  generate_recommendations cosine_1d float_str format_2f self
    user_context pattern_insights available_tools [].

End Sample.

(** ** The other agents of the module *)

(** Further built-ins: dicts given by their items in insertion order,
    slices and [str] of an integer. *)
Module PyDict.

(** [key in d]. *)
Definition mem {V : Type} (d : list (string * V)) (key : string) : bool :=
  existsb (fun item => String.eqb (fst item) key) d.

(** [d[key]] when the key is present. *)
Fixpoint lookup {V : Type} (d : list (string * V)) (key : string) : option V :=
  match d with
  | [] => None
  | (k, v) :: d' => if String.eqb k key then Some v else lookup d' key
  end.

(** [d[key] = value]: the value of a present key is replaced where it
    stands, a new key is added at the end. *)
Fixpoint setitem {V : Type} (d : list (string * V)) (key : string) (value : V)
    : list (string * V) :=
  match d with
  | [] => [(key, value)]
  | (k, v) :: d' =>
      if String.eqb k key then (k, value) :: d' else (k, v) :: setitem d' key value
  end.

(** [x in xs] for a list of strings. *)
Definition in_list (x : string) (xs : list string) : bool :=
  existsb (String.eqb x) xs.

(** The keys of a dict are pairwise distinct. *)
Definition well_formed {V : Type} (d : list (string * V)) : Prop :=
  NoDup (map fst d).

(** [s[:n]]. *)
Fixpoint slice_to (n : nat) (s : string) : string :=
  match n, s with
  | S n', String c s' => String c (slice_to n' s')
  | _, _ => EmptyString
  end.

(** [str(z)] for an integer. *)
Definition str_int (z : Z) : string :=
  match z with
  | Zneg p => "-" ++ NilZero.string_of_uint (N.to_uint (Npos p))
  | _ => NilZero.string_of_uint (N.to_uint (Z.to_N z))
  end.

End PyDict.

(** *** PrivacyGuardianAgent *)

Section PrivacyGuardian.

(** [hashlib.sha256(text.encode()).hexdigest()]. *)
Variable sha256_hexdigest : string -> string.

Definition _anonymize_user_id (user_id : string) : string :=
  PyDict.slice_to 16 (sha256_hexdigest user_id).

Definition _sanitize_activity_patterns (patterns : list (string * string))
    : list (string * string) :=
  fold_left
    (fun sanitized item =>
       let '(key, value) := item in
       if negb (PyDict.in_list key ["personal_info"; "sensitive_data"; "private_urls"])
       then PyDict.setitem sanitized key value
       else sanitized)
    patterns [].

Definition _sanitize_preferences (preferences : list (string * string))
    : list (string * string) :=
  let safe_keys := ["theme"; "notifications"; "learning_style"; "difficulty_preference"] in
  fold_left
    (fun kept item =>
       let '(k, v) := item in
       if PyDict.in_list k safe_keys then PyDict.setitem kept k v else kept)
    preferences [].

Definition _sanitize_goals (goals : list string) : list string :=
  fold_left
    (fun sanitized_goals goal =>
       let sensitive_keywords := ["salary"; "personal"; "confidential"; "private"] in
       if negb (existsb (fun keyword => Py.contains keyword (Py.lower goal))
                  sensitive_keywords)
       then (sanitized_goals ++ [goal])%list
       else sanitized_goals)
    goals [].

Definition sanitize_user_data (user_context : UserContext) : UserContext :=
  {| user_id := _anonymize_user_id (user_id user_context);
     activity_patterns := _sanitize_activity_patterns (activity_patterns user_context);
     skill_level := skill_level user_context;
     preferences := _sanitize_preferences (preferences user_context);
     goals := _sanitize_goals (goals user_context);
     work_domain := work_domain user_context;
     tools_used := tools_used user_context;
     productivity_score := productivity_score user_context |}.

End PrivacyGuardian.

(** A goal that mentions none of the sensitive keywords, whatever the
    case. *)
Definition harmless_goal (goal : string) : bool :=
  negb (existsb (fun keyword => Py.contains keyword (Py.lower goal))
          ["salary"; "personal"; "confidential"; "private"]).

(** *** ToolDiscoveryAgent *)

Definition _get_curated_tools (work_domain : string) : list AITool :=
  [Sample.gpt4; Sample.claude3].

Definition _discover_trending_tools : list AITool := [].

Definition _rank_tools_by_relevance (tools : list AITool) (user_context : UserContext)
    : list AITool :=
  tools.

(** No call of the body can raise, so the [except] branch, which answers
    the empty list, is never taken. *)
Definition discover_relevant_tools (user_context : UserContext) : list AITool :=
  let curated_tools := _get_curated_tools (work_domain user_context) in
  let trending_tools := _discover_trending_tools in
  let relevant_tools :=
    _rank_tools_by_relevance (curated_tools ++ trending_tools)%list user_context in
  firstn 20 relevant_tools.

(** *** LearningPathGenerator and ImplementationGuideAgent *)

(** An exception raised by a language-model client or by [json.loads],
    with the text that [str(e)] gives. *)
Inductive agent_error :=
| ClientError (message : string)
| JSONDecodeError (message : string).

Definition str_error (e : agent_error) : string :=
  match e with
  | ClientError message => message
  | JSONDecodeError message => message
  end.

(** A language-model client: from the prompts sent so far and the new
    prompt to the text of the answer, or to the exception of the call. *)
Definition llm_client := list string -> string -> string + agent_error.

Definition double_quote : string := String (ascii_of_nat 34) EmptyString.

(** The dict returned by [_create_implementation_guide]: a guide, or the
    error dict of the [except] branch. *)
Inductive guide :=
| Guide (guide_tool_id title content : string) (complexity : Z)
    (estimated_setup_time : string)
| GuideError (guide_tool_id error : string).

Definition tool_id_of_guide (g : guide) : string :=
  match g with
  | Guide guide_tool_id _ _ _ _ => guide_tool_id
  | GuideError guide_tool_id _ => guide_tool_id
  end.

Definition guide_prompt (user_context : UserContext) (recommendation : Recommendation)
    : string :=
  let indent := "        " in
  let line (text : string) := indent ++ text ++ Py.newline in
  Py.newline
  ++ line "Create a detailed implementation guide for integrating this AI tool:"
  ++ line ""
  ++ line ("Tool ID: " ++ tool_id recommendation)
  ++ line ("User Context: " ++ work_domain user_context ++ ", "
           ++ skill_level user_context)
  ++ line ("Implementation Complexity: "
           ++ PyDict.str_int (implementation_complexity recommendation) ++ "/5")
  ++ line ""
  ++ line "Provide:"
  ++ line "1. Getting started checklist"
  ++ line "2. Step-by-step setup instructions"
  ++ line "3. Integration examples"
  ++ line "4. Common pitfalls and solutions"
  ++ line "5. Success metrics"
  ++ line "6. Next steps for optimization"
  ++ line ""
  ++ line "Format as practical, actionable guide."
  ++ indent.

(** The second component is the list of prompts sent, the call of this
    guide included. *)
Definition _create_implementation_guide (client : llm_client)
    (user_context : UserContext) (recommendation : Recommendation)
    (sent : list string) : guide * list string :=
  let prompt := guide_prompt user_context recommendation in
  match client sent prompt with
  | inl content =>
      (Guide (tool_id recommendation)
         ("Implementation Guide for " ++ tool_id recommendation)
         content
         (implementation_complexity recommendation)
         (PyDict.str_int (learning_time_hours recommendation / 4) ++ " hours"),
       (sent ++ [prompt])%list)
  | inr e =>
      (GuideError (tool_id recommendation) (str_error e), (sent ++ [prompt])%list)
  end.

(** The loop of [generate_guides], with the list [guides] it appends to. *)
Fixpoint generate_guides_from (client : llm_client) (user_context : UserContext)
    (recommendations : list Recommendation) (guides : list guide)
    (sent : list string) : list guide * list string :=
  match recommendations with
  | [] => (guides, sent)
  | recommendation :: rest =>
      let '(g, sent') :=
        _create_implementation_guide client user_context recommendation sent in
      generate_guides_from client user_context rest (guides ++ [g])%list sent'
  end.

Definition generate_guides (client : llm_client) (user_context : UserContext)
    (recommendations : list Recommendation) (sent : list string)
    : list guide * list string :=
  generate_guides_from client user_context recommendations [] sent.

Section LearningPaths.

(** The values of [json.loads] and the function itself. *)
Variable json : Type.
Variable json_loads : string -> json + agent_error.

(** The dict returned by [_create_single_learning_path]: the decoded
    answer, or the error dict of the [except] branch. *)
Inductive learning_path :=
| PathData (path_data : json)
| PathError (path_tool_id title error : string).

Definition learning_path_prompt (user_context : UserContext) (tool_id : string)
    : string :=
  let indent := "        " in
  let line (text : string) := indent ++ text ++ Py.newline in
  let quoted (text : string) := double_quote ++ text ++ double_quote in
  Py.newline
  ++ line "Create a detailed learning path for mastering this AI tool:"
  ++ line ""
  ++ line ("Tool ID: " ++ tool_id)
  ++ line ("User Skill Level: " ++ skill_level user_context)
  ++ line ("Work Domain: " ++ work_domain user_context)
  ++ line ("Goals: " ++ Py.join ", " (goals user_context))
  ++ line ""
  ++ line "Please provide a structured learning path with:"
  ++ line "1. Learning objectives"
  ++ line "2. Prerequisites"
  ++ line "3. Step-by-step modules (5-7 steps)"
  ++ line "4. Estimated time for each step"
  ++ line "5. Practical exercises"
  ++ line "6. Success metrics"
  ++ line ""
  ++ line "Format as JSON:"
  ++ line "{"
  ++ line ("    " ++ quoted "tool_id" ++ ": " ++ quoted tool_id ++ ",")
  ++ line ("    " ++ quoted "title" ++ ": " ++ quoted "Learning Path Title" ++ ",")
  ++ line ("    " ++ quoted "objectives" ++ ": [],")
  ++ line ("    " ++ quoted "prerequisites" ++ ": [],")
  ++ line ("    " ++ quoted "modules" ++ ": [")
  ++ line "        {"
  ++ line ("            " ++ quoted "step" ++ ": 1,")
  ++ line ("            " ++ quoted "title" ++ ": " ++ quoted "Module Title" ++ ",")
  ++ line ("            " ++ quoted "description" ++ ": "
           ++ quoted "Module description" ++ ",")
  ++ line ("            " ++ quoted "estimated_hours" ++ ": 2,")
  ++ line ("            " ++ quoted "exercises" ++ ": [],")
  ++ line ("            " ++ quoted "resources" ++ ": []")
  ++ line "        }"
  ++ line "    ],"
  ++ line ("    " ++ quoted "success_metrics" ++ ": [],")
  ++ line ("    " ++ quoted "total_duration_hours" ++ ": 20")
  ++ line "}"
  ++ indent.

Definition _create_single_learning_path (client : llm_client)
    (user_context : UserContext) (tool_id : string) (sent : list string)
    : learning_path * list string :=
  let prompt := learning_path_prompt user_context tool_id in
  let fallback (e : agent_error) :=
    PathError tool_id ("Learning Path for " ++ tool_id) (str_error e) in
  match client sent prompt with
  | inl text =>
      match json_loads text with
      | inl path_data => (PathData path_data, (sent ++ [prompt])%list)
      | inr e => (fallback e, (sent ++ [prompt])%list)
      end
  | inr e => (fallback e, (sent ++ [prompt])%list)
  end.

(** The loop of [create_learning_paths], with the list [learning_paths] it
    appends to.  The body raises nothing, so the [except] branch of the
    method, which answers the empty list, is never taken. *)
Fixpoint create_learning_paths_from (client : llm_client) (user_context : UserContext)
    (recommended_tools : list string) (learning_paths : list learning_path)
    (sent : list string) : list learning_path * list string :=
  match recommended_tools with
  | [] => (learning_paths, sent)
  | tool_id :: rest =>
      let '(path, sent') :=
        _create_single_learning_path client user_context tool_id sent in
      create_learning_paths_from client user_context rest
        (learning_paths ++ [path])%list sent'
  end.

Definition create_learning_paths (client : llm_client) (user_context : UserContext)
    (recommended_tools : list string) (sent : list string)
    : list learning_path * list string :=
  create_learning_paths_from client user_context recommended_tools [] sent.

(** What the path of one tool id can be, given the client's answer. *)
Definition path_for (client : llm_client) (user_context : UserContext)
    (tool_id : string) (path : learning_path) : Prop :=
  exists sent,
    match client sent (learning_path_prompt user_context tool_id) with
    | inl text =>
        match json_loads text with
        | inl path_data => path = PathData path_data
        | inr e =>
            path = PathError tool_id ("Learning Path for " ++ tool_id) (str_error e)
        end
    | inr e => path = PathError tool_id ("Learning Path for " ++ tool_id) (str_error e)
    end.

End LearningPaths.

Arguments PathData {json} path_data.
Arguments PathError {json} path_tool_id title error.

(** What the guide of one recommendation can be, given the client's
    answer. *)
Definition guide_for (client : llm_client) (user_context : UserContext)
    (recommendation : Recommendation) (g : guide) : Prop :=
  exists sent,
    match client sent (guide_prompt user_context recommendation) with
    | inl content =>
        g = Guide (tool_id recommendation)
              ("Implementation Guide for " ++ tool_id recommendation)
              content
              (implementation_complexity recommendation)
              (PyDict.str_int (learning_time_hours recommendation / 4) ++ " hours")
    | inr e => g = GuideError (tool_id recommendation) (str_error e)
    end.

(** Sample clients and a sample decoder for the downstream agents. *)
Module DownstreamSample.

Definition answering : llm_client := fun _ _ => inl "{}".

Definition failing : llm_client := fun _ _ => inr (ClientError "Connection error.").

(** Fails from the second call on. *)
Definition flaky : llm_client :=
  fun sent _ =>
    match sent with
    | [] => inl "Install the SDK, then set the API key."
    | _ => inr (ClientError "Rate limit reached.")
    end.

(** A decoder that accepts the texts that start with a brace. *)
Definition loads (text : string) : string + agent_error :=
  if String.prefix "{" text then inl text
  else inr (JSONDecodeError "Expecting value: line 1 column 1 (char 0)").

Definition scored : Recommendation :=
  {| tool_id := "claude3";
     relevance_score := 0.765;
     confidence := 0.918;
     reasoning := "A good fit for your reports.";
     implementation_complexity := 3;
     expected_impact := "High";
     learning_time_hours := 6 |}.

End DownstreamSample.

(** ** Further record updates and trace measures *)

Definition with_work_domain (user_context : UserContext) (domain : string) : UserContext :=
  {| user_id := user_id user_context;
     activity_patterns := activity_patterns user_context;
     skill_level := skill_level user_context;
     preferences := preferences user_context;
     goals := goals user_context;
     work_domain := domain;
     tools_used := tools_used user_context;
     productivity_score := productivity_score user_context |}.

Definition with_goals (user_context : UserContext) (new_goals : list string)
    : UserContext :=
  {| user_id := user_id user_context;
     activity_patterns := activity_patterns user_context;
     skill_level := skill_level user_context;
     preferences := preferences user_context;
     goals := new_goals;
     work_domain := work_domain user_context;
     tools_used := tools_used user_context;
     productivity_score := productivity_score user_context |}.

Definition with_integration_complexity (tool : AITool) (c : Z) : AITool :=
  {| id := id tool;
     name := name tool;
     category := category tool;
     description := description tool;
     capabilities := capabilities tool;
     pricing_model := pricing_model tool;
     difficulty_level := difficulty_level tool;
     integration_complexity := c;
     user_rating := user_rating tool;
     use_cases := use_cases tool |}.

Definition with_use_cases (tool : AITool) (cases : list string) : AITool :=
  {| id := id tool;
     name := name tool;
     category := category tool;
     description := description tool;
     capabilities := capabilities tool;
     pricing_model := pricing_model tool;
     difficulty_level := difficulty_level tool;
     integration_complexity := integration_complexity tool;
     user_rating := user_rating tool;
     use_cases := cases |}.

(** The number of embedding calls recorded in a trace. *)
Definition is_encode_call (e : event) : bool :=
  match e with EncodeCall _ => true | MessagesCreateCall _ => false end.

Definition encode_calls (tr : trace) : nat := length (filter is_encode_call tr).

(** The prompts of the text-generation calls of a trace, in call order. *)
Fixpoint text_prompts (tr : trace) : list string :=
  match tr with
  | [] => []
  | MessagesCreateCall prompt :: tr' => prompt :: text_prompts tr'
  | EncodeCall _ :: tr' => text_prompts tr'
  end.

(** Further sample data: a raw user context, a stand-in digest and a
    catalog of twelve tools. *)
Module ExtraSample.

(** A stand-in for the digest: sixty-four hexadecimal characters that
    depend on the length of the text only. *)
Definition digest (text : string) : string :=
  let block := if Nat.even (String.length text) then "3f2a9c11d04e77b1"
               else "9b1d44f0a2c3e5d7" in
  block ++ block ++ block ++ block.

Definition raw_analyst : UserContext :=
  {| user_id := "dana@example.org";
     activity_patterns :=
       [("focus_hours", "4"); ("personal_info", "Dana, Lisbon");
        ("top_app", "spreadsheet"); ("private_urls", "intranet/payroll")];
     skill_level := "intermediate";
     preferences :=
       [("theme", "dark"); ("home_address", "12 Quay Street");
        ("learning_style", "visual")];
     goals := ["automate reports"; "Negotiate a higher SALARY"; "learn SQL"];
     work_domain := "Data Analysis";
     tools_used := ["excel"];
     productivity_score := 0.5 |}.

Definition renamed (suffix : string) (tool : AITool) : AITool :=
  {| id := id tool ++ suffix;
     name := name tool ++ suffix;
     category := category tool;
     description := description tool;
     capabilities := capabilities tool;
     pricing_model := pricing_model tool;
     difficulty_level := difficulty_level tool;
     integration_complexity := integration_complexity tool;
     user_rating := user_rating tool;
     use_cases := use_cases tool |}.

Definition catalog12 : list AITool :=
  (map (renamed "-a") Sample.catalog ++ map (renamed "-b") Sample.catalog
   ++ map (renamed "-c") Sample.catalog)%list.

End ExtraSample.

(** * Properties *)

(** ** Python built-ins *)

Module PyFacts.

Lemma min_Qmin (a b : Q) : Py.min a b == Qmin a b.
Proof.
  unfold Py.min. destruct (Qle_bool a b) eqn:E.
  - apply Qle_bool_iff in E. symmetry. now apply Q.min_l.
  - assert (H : ~ a <= b) by (rewrite <- Qle_bool_iff; congruence).
    symmetry. apply Q.min_r. apply Qnot_le_lt in H. now apply Qlt_le_weak.
Qed.

Lemma min_le_r (a b : Q) : Py.min a b <= b.
Proof. rewrite min_Qmin. apply Q.le_min_r. Qed.

Lemma min_glb (a b c : Q) : c <= a -> c <= b -> c <= Py.min a b.
Proof. intros Ha Hb. unfold Py.min. now destruct (Qle_bool a b). Qed.

Lemma clamp_bounds (z : Z) : (1 <= Py.zmax 1 (Py.zmin 5 z) <= 5)%Z.
Proof.
  unfold Py.zmax, Py.zmin.
  destruct (5 <=? z)%Z eqn:E1.
  - simpl. lia.
  - apply Z.leb_gt in E1. destruct (z <=? 1)%Z eqn:E2.
    + lia.
    + apply Z.leb_gt in E2. lia.
Qed.

(** The generator sum is the number of elements that pass the test. *)
Lemma sum_ones_from {A : Type} (test : A -> bool) (xs : list A) (acc : Z) :
  fold_left (fun acc x => if test x then (acc + 1)%Z else acc) xs acc
  = (acc + Z.of_nat (length (filter test xs)))%Z.
Proof.
  revert acc. induction xs as [|x xs IH]; intros acc; simpl.
  - lia.
  - rewrite IH. destruct (test x); simpl length; lia.
Qed.

Lemma sum_ones_count {A : Type} (test : A -> bool) (xs : list A) :
  Py.sum_ones test xs = Z.of_nat (length (filter test xs)).
Proof. unfold Py.sum_ones. now rewrite sum_ones_from. Qed.

Lemma get_unknown {V : Type} (d : list (string * V)) (key : string) (default : V) :
  (forall k v, In (k, v) d -> k <> key) -> Py.get d key default = default.
Proof.
  induction d as [|[k v] d IH]; intros H; simpl.
  - reflexivity.
  - destruct (String.eqb_spec k key) as [E|_].
    + exfalso. apply (H k v); [now left | exact E].
    + apply IH. intros k' v' Hin. apply (H k' v'). now right.
Qed.

End PyFacts.

(** ** The sort: permutation, order and stability *)

Section SortFacts.
Context {A : Type} (key : A -> Q).

Lemma insert_reverse_perm (x : A) (l : list A) :
  Permutation (insert_reverse key x l) (x :: l).
Proof.
  induction l as [|y l IH]; simpl.
  - apply Permutation_refl.
  - destruct (key_lt key x y).
    + apply perm_trans with (y :: x :: l).
      * now apply perm_skip.
      * apply perm_swap.
    + apply Permutation_refl.
Qed.

Lemma sort_reverse_perm (l : list A) : Permutation (sort_reverse key l) l.
Proof.
  induction l as [|x l IH]; simpl.
  - apply perm_nil.
  - apply perm_trans with (x :: sort_reverse key l).
    + apply insert_reverse_perm.
    + now apply perm_skip.
Qed.

Lemma sort_reverse_length (l : list A) : length (sort_reverse key l) = length l.
Proof. apply Permutation_length, sort_reverse_perm. Qed.

Lemma key_lt_true (x y : A) : key_lt key x y = true -> key x <= key y.
Proof.
  unfold key_lt. rewrite negb_true_iff. intros E.
  apply Qlt_le_weak, Qnot_le_lt. rewrite <- Qle_bool_iff. congruence.
Qed.

Lemma key_lt_false (x y : A) : key_lt key x y = false -> key y <= key x.
Proof.
  unfold key_lt. rewrite negb_false_iff. apply Qle_bool_iff.
Qed.

Lemma insert_reverse_descending (x : A) (l : list A) :
  descending key l -> descending key (insert_reverse key x l).
Proof.
  unfold descending. induction l as [|y l IH]; intros Hs; simpl.
  - constructor; constructor.
  - inversion Hs as [|? ? Hl Hy]; subst.
    destruct (key_lt key x y) eqn:E.
    + constructor; [now apply IH|].
      eapply Permutation_Forall.
      * symmetry. apply insert_reverse_perm.
      * constructor; [now apply key_lt_true | exact Hy].
    + constructor; [exact Hs|].
      apply key_lt_false in E. constructor; [exact E|].
      eapply Forall_impl; [|exact Hy]. intros z Hz. simpl in Hz.
      eapply Qle_trans; eassumption.
Qed.

Lemma sort_reverse_descending (l : list A) : descending key (sort_reverse key l).
Proof.
  induction l as [|x l IH]; simpl.
  - constructor.
  - now apply insert_reverse_descending.
Qed.

(** Stability: the elements of any one key value keep their order. *)
Lemma insert_reverse_stable (s : Q) (x : A) (l : list A) :
  filter (fun a => Qeq_bool (key a) s) (insert_reverse key x l)
  = filter (fun a => Qeq_bool (key a) s) (x :: l).
Proof.
  induction l as [|y l IH].
  - reflexivity.
  - simpl insert_reverse. destruct (key_lt key x y) eqn:E.
    + simpl filter at 1. rewrite IH. simpl.
      destruct (Qeq_bool (key y) s) eqn:Ey; [|reflexivity].
      destruct (Qeq_bool (key x) s) eqn:Ex; [|reflexivity].
      exfalso. apply Qeq_bool_iff in Ey, Ex.
      unfold key_lt in E. apply negb_true_iff in E.
      assert (H : key y <= key x) by (rewrite Ey, Ex; apply Qle_refl).
      apply Qle_bool_iff in H. congruence.
    + reflexivity.
Qed.

Lemma sort_reverse_stable (s : Q) (l : list A) :
  filter (fun a => Qeq_bool (key a) s) (sort_reverse key l)
  = filter (fun a => Qeq_bool (key a) s) l.
Proof.
  induction l as [|x l IH].
  - reflexivity.
  - simpl sort_reverse. rewrite insert_reverse_stable. simpl. now rewrite IH.
Qed.

Lemma in_firstn (n : nat) (l : list A) (a : A) : In a (firstn n l) -> In a l.
Proof.
  intros H. rewrite <- (firstn_skipn n l). apply in_or_app. now left.
Qed.

Lemma descending_firstn (n : nat) (l : list A) :
  descending key l -> descending key (firstn n l).
Proof.
  unfold descending. revert n. induction l as [|x l IH]; intros n Hs.
  - now rewrite firstn_nil.
  - destruct n as [|n]; simpl; [constructor|].
    inversion Hs as [|? ? Hl Hx]; subst. constructor; [now apply IH|].
    rewrite Forall_forall in *. intros y Hy. apply Hx.
    now apply (in_firstn n).
Qed.

Lemma descending_nth (l : list A) (i j : nat) (a b : A) :
  descending key l -> (i < j)%nat ->
  nth_error l i = Some a -> nth_error l j = Some b -> key b <= key a.
Proof.
  unfold descending. intros Hs. revert i j.
  induction Hs as [|x l Hl IH Hx]; intros i j Hij Hi Hj.
  - destruct i; discriminate.
  - destruct j as [|j]; [lia|]. simpl in Hj. destruct i as [|i].
    + simpl in Hi. injection Hi as <-.
      rewrite Forall_forall in Hx. apply Hx. eapply nth_error_In, Hj.
    + simpl in Hi. apply (IH i j); [lia | assumption | assumption].
Qed.

Lemma filter_firstn_prefix (p : A -> bool) (n : nat) (l : list A) :
  prefix_of (filter p (firstn n l)) (filter p l).
Proof.
  exists (filter p (skipn n l)).
  rewrite <- filter_app. now rewrite firstn_skipn.
Qed.

End SortFacts.

(** ** The methods of the engine, one call at a time *)

Section EngineFacts.

Variable cosine_similarity : list Q -> list Q -> Q.
Variable float_str : Q -> string.
Variable format_2f : Q -> string.
Variable self : RecommendationEngine.

Lemma text_calls_app (tr1 tr2 : trace) :
  text_calls (tr1 ++ tr2)%list = (text_calls tr1 + text_calls tr2)%nat.
Proof. unfold text_calls. now rewrite filter_app, length_app. Qed.

(** The division of [_calculate_domain_relevance] is guarded: the method
    returns, and its value is the specified ratio. *)
Lemma domain_relevance_returns tool user_context :
  exists score,
    _calculate_domain_relevance tool user_context = Returned score /\
    score == Spec.domain_relevance tool user_context.
Proof.
  unfold _calculate_domain_relevance, Spec.domain_relevance,
    Spec.domain_tokens, Spec.domain_text.
  destruct (Py.split (Py.lower (work_domain user_context))) as [|token tokens] eqn:E.
  - exists 0.5. split; reflexivity.
  - unfold Py.truediv.
    destruct (Z.eqb_spec (Z.of_nat (length (token :: tokens))) 0) as [Hz|_];
      [simpl length in Hz; lia|].
    eexists. split; [reflexivity|].
    rewrite PyFacts.min_Qmin, PyFacts.sum_ones_count. reflexivity.
Qed.

Lemma relevance_score_returns tool user_context pattern_insights
    user_embedding tool_embedding domain_relevance tr :
  embedding_model self (tool_profile tool) = Some tool_embedding ->
  _calculate_domain_relevance tool user_context = Returned domain_relevance ->
  _calculate_relevance_score cosine_similarity self tool user_context
    pattern_insights user_embedding tr
  = (Returned
       (Py.min (cosine_similarity user_embedding tool_embedding * 0.3
                + _calculate_skill_match tool user_context * 0.25
                + domain_relevance * 0.25
                + _calculate_tool_compatibility tool user_context * 0.2) 1.0),
     (tr ++ [EncodeCall (tool_profile tool)])%list).
Proof.
  intros E D. unfold _calculate_relevance_score, bind, encode, pure.
  now rewrite E, D.
Qed.

Lemma relevance_score_raises tool user_context pattern_insights user_embedding tr :
  embedding_model self (tool_profile tool) = None ->
  _calculate_relevance_score cosine_similarity self tool user_context
    pattern_insights user_embedding tr
  = (Raised EncodeError, (tr ++ [EncodeCall (tool_profile tool)])%list).
Proof.
  intros E. unfold _calculate_relevance_score, bind, encode. now rewrite E.
Qed.

Lemma generate_reasoning_returns tool user_context relevance tr :
  _generate_reasoning format_2f self tool user_context relevance tr
  = (Returned
       match client self tr (reasoning_prompt format_2f tool user_context relevance) with
       | Some text => Py.strip text
       | None => fallback_reasoning user_context
       end,
     (tr ++ [MessagesCreateCall
               (reasoning_prompt format_2f tool user_context relevance)])%list).
Proof.
  unfold _generate_reasoning, try_except, bind, messages_create, ret.
  now destruct (client self tr _).
Qed.

Lemma predict_impact_pure tool user_context :
  exists impact,
    (impact = "High" \/ impact = "Medium" \/ impact = "Low") /\
    forall tr, _predict_impact tool user_context tr = (Returned impact, tr).
Proof.
  unfold _predict_impact.
  destruct (Py.lt (productivity_score user_context) 0.6 && Py.lt 4.5 (user_rating tool)).
  - exists "High". split; [now left | reflexivity].
  - destruct (Py.lt (productivity_score user_context) 0.8).
    + exists "Medium". split; [now right; left | reflexivity].
    + exists "Low". split; [now right; right | reflexivity].
Qed.

(** The loop when every tool profile can be embedded. *)
Lemma score_tools_returns user_context pattern_insights user_embedding tools :
  (forall tool, In tool tools -> embedding_model self (tool_profile tool) <> None) ->
  forall recommendations tr,
  exists scored tr',
    score_tools cosine_similarity format_2f self user_context pattern_insights
      user_embedding tools recommendations tr
    = (Returned (recommendations ++ scored)%list, tr') /\
    Forall2 (scored_as cosine_similarity format_2f self user_context user_embedding)
      tools scored /\
    text_calls tr' = (text_calls tr + length tools)%nat.
Proof.
  induction tools as [|tool rest IH]; intros Hok recommendations tr.
  - exists [], tr. simpl. unfold ret. rewrite app_nil_r.
    repeat split; [constructor | lia].
  - destruct (embedding_model self (tool_profile tool)) as [te|] eqn:E;
      [|exfalso; apply (Hok tool); [now left | exact E]].
    destruct (predict_impact_pure tool user_context) as (impact & _ & Himpact).
    destruct (domain_relevance_returns tool user_context) as (dom & D & _).
    simpl score_tools. unfold bind at 1.
    rewrite (relevance_score_returns _ _ _ _ _ _ _ E D).
    unfold bind at 1. rewrite generate_reasoning_returns.
    unfold bind at 1. rewrite Himpact.
    match goal with
    | |- exists _ _, score_tools _ _ _ _ _ _ _ (_ ++ [?r])%list ?tr2 = _ /\ _ =>
        destruct (IH (fun x Hx => Hok x (or_intror Hx)) (recommendations ++ [r])%list tr2)
          as (scored & tr' & Hrun & Hall & Hcalls);
        exists (r :: scored), tr'
    end.
    split; [|split].
    + rewrite Hrun. now rewrite <- app_assoc.
    + constructor; [|exact Hall].
      exists te, dom, (tr ++ [EncodeCall (tool_profile tool)])%list. simpl.
      repeat split; try reflexivity; try assumption. apply Himpact.
    + rewrite Hcalls. rewrite !text_calls_app. simpl. unfold text_calls. simpl. lia.
Qed.

(** The loop when some tool profile cannot be embedded. *)
Lemma score_tools_raises user_context pattern_insights user_embedding tools :
  (exists tool, In tool tools /\ embedding_model self (tool_profile tool) = None) ->
  forall recommendations tr,
  exists tr',
    score_tools cosine_similarity format_2f self user_context pattern_insights
      user_embedding tools recommendations tr
    = (Raised EncodeError, tr').
Proof.
  induction tools as [|tool rest IH]; intros (bad & Hin & Hbad) recommendations tr.
  - destruct Hin.
  - simpl score_tools. unfold bind at 1.
    destruct (embedding_model self (tool_profile tool)) as [te|] eqn:E.
    + destruct Hin as [<-|Hin]; [congruence|].
      destruct (predict_impact_pure tool user_context) as (impact & _ & Himpact).
      destruct (domain_relevance_returns tool user_context) as (dom & D & _).
      rewrite (relevance_score_returns _ _ _ _ _ _ _ E D).
      unfold bind at 1. rewrite generate_reasoning_returns.
      unfold bind at 1. rewrite Himpact.
      apply IH. now exists bad.
    + rewrite (relevance_score_raises _ _ _ _ _ E). eauto.
Qed.

(** At most one text-generation call per tool, whatever happens. *)
Lemma score_tools_text_calls user_context pattern_insights user_embedding tools :
  forall recommendations tr,
    (text_calls (snd (score_tools cosine_similarity format_2f self user_context
                        pattern_insights user_embedding tools recommendations tr))
     <= text_calls tr + length tools)%nat.
Proof.
  induction tools as [|tool rest IH]; intros recommendations tr.
  - simpl. lia.
  - simpl score_tools. unfold bind at 1.
    destruct (embedding_model self (tool_profile tool)) as [te|] eqn:E.
    + destruct (predict_impact_pure tool user_context) as (impact & _ & Himpact).
      destruct (domain_relevance_returns tool user_context) as (dom & D & _).
      rewrite (relevance_score_returns _ _ _ _ _ _ _ E D).
      unfold bind at 1. rewrite generate_reasoning_returns.
      unfold bind at 1. rewrite Himpact.
      eapply Nat.le_trans; [apply IH|].
      rewrite !text_calls_app. unfold text_calls. simpl. lia.
    + rewrite (relevance_score_raises _ _ _ _ _ E). simpl.
      rewrite text_calls_app. unfold text_calls. simpl. lia.
Qed.

(** Either every tool profile can be embedded, or one cannot. *)
Lemma embeddings_dec (tools : list AITool) :
  (forall tool, In tool tools -> embedding_model self (tool_profile tool) <> None)
  \/ (exists tool, In tool tools /\ embedding_model self (tool_profile tool) = None).
Proof.
  induction tools as [|tool rest [IH|(bad & Hin & Hbad)]].
  - left. intros tool [].
  - destruct (embedding_model self (tool_profile tool)) as [te|] eqn:E.
    + left. intros t [<-|Ht]; [congruence | now apply IH].
    + right. exists tool. split; [now left | exact E].
  - right. exists bad. split; [now right | exact Hbad].
Qed.

Lemma Forall2_in_r {A B : Type} (R : A -> B -> Prop) (l1 : list A) (l2 : list B) (b : B) :
  Forall2 R l1 l2 -> In b l2 -> exists a, In a l1 /\ R a b.
Proof.
  induction 1 as [|a b' l1 l2 Hab Hall IH]; intros Hin.
  - destruct Hin.
  - destruct Hin as [<-|Hin].
    + exists a. split; [now left | exact Hab].
    + destruct (IH Hin) as (a' & Ha' & HR). exists a'. split; [now right | exact HR].
Qed.

(** The request when the user profile and every tool profile can be
    embedded: the scored tools, sorted and cut at ten. *)
Lemma generate_recommendations_ranks user_context pattern_insights tools
    user_embedding tr :
  embedding_model self (_create_user_profile float_str user_context pattern_insights)
    = Some user_embedding ->
  (forall tool, In tool tools -> embedding_model self (tool_profile tool) <> None) ->
  exists scored tr',
    generate_recommendations cosine_similarity float_str format_2f self
      user_context pattern_insights tools tr
    = (Returned (firstn 10 (sort_reverse relevance_score scored)), tr') /\
    Forall2 (scored_as cosine_similarity format_2f self user_context user_embedding)
      tools scored /\
    text_calls tr' = (text_calls tr + length tools)%nat.
Proof.
  intros Eu Hok.
  unfold generate_recommendations, try_except, bind, encode. rewrite Eu.
  destruct (score_tools_returns user_context pattern_insights user_embedding tools Hok []
              (tr ++ [EncodeCall (_create_user_profile float_str user_context
                                    pattern_insights)])%list)
    as (scored & tr' & Hrun & Hall & Hcalls).
  rewrite Hrun. exists scored, tr'. repeat split; [assumption|].
  rewrite Hcalls, text_calls_app. unfold text_calls. simpl. lia.
Qed.

(** The request when an embedding cannot be computed: the [except]
    branch answers the empty list. *)
Lemma generate_recommendations_fails user_context pattern_insights tools tr :
  embedding_model self (_create_user_profile float_str user_context pattern_insights)
    = None
  \/ (exists tool, In tool tools /\ embedding_model self (tool_profile tool) = None) ->
  exists tr',
    generate_recommendations cosine_similarity float_str format_2f self
      user_context pattern_insights tools tr
    = (Returned [], tr').
Proof.
  intros H. unfold generate_recommendations, try_except, bind, encode.
  destruct (embedding_model self _) as [ue|] eqn:Eu.
  - destruct H as [H|H]; [discriminate|].
    destruct (score_tools_raises user_context pattern_insights ue tools H []
                (tr ++ [EncodeCall (_create_user_profile float_str user_context
                                      pattern_insights)])%list) as (tr' & Hrun).
    rewrite Hrun. unfold ret. eauto.
  - unfold ret. eauto.
Qed.

(** The request always returns a list: no exception leaves it. *)
Lemma generate_recommendations_total user_context pattern_insights tools tr :
  exists out tr',
    generate_recommendations cosine_similarity float_str format_2f self
      user_context pattern_insights tools tr
    = (Returned out, tr').
Proof.
  unfold generate_recommendations, try_except.
  match goal with |- context [match ?body tr with _ => _ end] =>
    destruct (body tr) as [[out|e] tr'] end; unfold ret; eauto.
Qed.

(** Every returned recommendation was built by the loop body for one of
    the candidate tools. *)
Lemma generate_recommendations_in user_context pattern_insights tools tr out tr' :
  generate_recommendations cosine_similarity float_str format_2f self
    user_context pattern_insights tools tr = (Returned out, tr') ->
  forall r, In r out ->
  exists user_embedding tool,
    In tool tools /\
    scored_as cosine_similarity format_2f self user_context user_embedding tool r.
Proof.
  intros Hrun r Hr.
  destruct (embedding_model self
              (_create_user_profile float_str user_context pattern_insights))
    as [ue|] eqn:Eu.
  - destruct (embeddings_dec tools) as [Hok|Hbad].
    + destruct (generate_recommendations_ranks _ _ _ _ tr Eu Hok)
        as (scored & tr2 & Hrun2 & Hall & _).
      assert (Hout : out = firstn 10 (sort_reverse relevance_score scored))
        by congruence.
      rewrite Hout in Hr. apply in_firstn in Hr.
      apply (Permutation_in _ (sort_reverse_perm relevance_score scored)) in Hr.
      destruct (Forall2_in_r _ _ _ _ Hall Hr) as (tool & Ht & Hs).
      now exists ue, tool.
    + destruct (generate_recommendations_fails user_context pattern_insights tools tr
                  (or_intror Hbad)) as (tr2 & Hrun2).
      rewrite Hrun2 in Hrun. injection Hrun as <- _. destruct Hr.
  - destruct (generate_recommendations_fails user_context pattern_insights tools tr
                (or_introl Eu)) as (tr2 & Hrun2).
    rewrite Hrun2 in Hrun. injection Hrun as <- _. destruct Hr.
Qed.

(** The same, with the embedding of the user profile that the scores were
    computed from. *)
Lemma generate_recommendations_in_embedded user_context pattern_insights tools tr
    out tr' :
  generate_recommendations cosine_similarity float_str format_2f self
    user_context pattern_insights tools tr = (Returned out, tr') ->
  forall r, In r out ->
  exists user_embedding tool,
    embedding_model self (_create_user_profile float_str user_context pattern_insights)
      = Some user_embedding /\
    In tool tools /\
    scored_as cosine_similarity format_2f self user_context user_embedding tool r.
Proof.
  intros Hrun r Hr.
  destruct (embedding_model self
              (_create_user_profile float_str user_context pattern_insights))
    as [ue|] eqn:Eu.
  - destruct (embeddings_dec tools) as [Hok|Hbad].
    + destruct (generate_recommendations_ranks _ _ _ _ tr Eu Hok)
        as (scored & tr2 & Hrun2 & Hall & _).
      rewrite Hrun2 in Hrun.
      assert (Hout : out = firstn 10 (sort_reverse relevance_score scored))
        by congruence.
      rewrite Hout in Hr. apply in_firstn in Hr.
      apply (Permutation_in _ (sort_reverse_perm relevance_score scored)) in Hr.
      destruct (Forall2_in_r _ _ _ _ Hall Hr) as (tool & Ht & Hs).
      exists ue, tool. repeat split; assumption.
    + destruct (generate_recommendations_fails user_context pattern_insights tools tr
                  (or_intror Hbad)) as (tr2 & Hrun2).
      rewrite Hrun2 in Hrun. injection Hrun as <- _. destruct Hr.
  - destruct (generate_recommendations_fails user_context pattern_insights tools tr
                (or_introl Eu)) as (tr2 & Hrun2).
    rewrite Hrun2 in Hrun. injection Hrun as <- _. destruct Hr.
Qed.

Lemma generate_recommendations_text_calls user_context pattern_insights tools tr :
  (text_calls (snd (generate_recommendations cosine_similarity float_str format_2f self
                      user_context pattern_insights tools tr))
   <= text_calls tr + length tools)%nat.
Proof.
  unfold generate_recommendations, try_except, bind, encode.
  destruct (embedding_model self _) as [ue|].
  - pose proof (score_tools_text_calls user_context pattern_insights ue tools []
                  (tr ++ [EncodeCall (_create_user_profile float_str user_context
                                        pattern_insights)])%list) as H.
    rewrite text_calls_app in H. unfold text_calls at 3 in H. simpl in H.
    destruct (score_tools _ _ _ _ _ _ _ _ _) as [[recs|e] tr2]; simpl in *; lia.
  - simpl. rewrite text_calls_app. unfold text_calls. simpl. lia.
Qed.

End EngineFacts.

(** ** The heuristic scorers *)

Section ScorerClaims.

Variable cosine_similarity : list Q -> list Q -> Q.
Variable float_str : Q -> string.
Variable format_2f : Q -> string.
Variable self : RecommendationEngine.

(** C1: once the tool profile is embedded, [_calculate_relevance_score]
    returns 0.30 * semantic_similarity + 0.25 * skill_match
    + 0.25 * domain_relevance + 0.20 * tool_compatibility capped at 1.0,
    the four terms being the cosine similarity of the two embeddings and
    the values of the three heuristic scorers on the same tool and user;
    the four weights sum to 1.0. *)
Theorem relevance_score_weighted_sum tool user_context pattern_insights
    user_embedding tool_embedding tr :
  embedding_model self (tool_profile tool) = Some tool_embedding ->
  exists domain_relevance score tr',
    _calculate_domain_relevance tool user_context = Returned domain_relevance /\
    _calculate_relevance_score cosine_similarity self tool user_context
      pattern_insights user_embedding tr = (Returned score, tr') /\
    score == Spec.relevance (cosine_similarity user_embedding tool_embedding)
               (_calculate_skill_match tool user_context)
               domain_relevance
               (_calculate_tool_compatibility tool user_context) /\
    score == Qmin (0.30 * cosine_similarity user_embedding tool_embedding
                   + 0.25 * _calculate_skill_match tool user_context
                   + 0.25 * domain_relevance
                   + 0.20 * _calculate_tool_compatibility tool user_context) 1.0 /\
    0.30 + 0.25 + 0.25 + 0.20 == 1.0.
Proof.
  intros E.
  destruct (domain_relevance_returns tool user_context) as (dom & D & _).
  exists dom. eexists. eexists. split; [exact D|].
  split; [apply (relevance_score_returns _ _ _ _ _ _ _ _ _ E D)|].
  assert (H : cosine_similarity user_embedding tool_embedding * 0.3
              + _calculate_skill_match tool user_context * 0.25
              + dom * 0.25
              + _calculate_tool_compatibility tool user_context * 0.2
              == 0.30 * cosine_similarity user_embedding tool_embedding
                 + 0.25 * _calculate_skill_match tool user_context
                 + 0.25 * dom
                 + 0.20 * _calculate_tool_compatibility tool user_context)
    by ring.
  unfold Spec.relevance. rewrite PyFacts.min_Qmin, H.
  repeat split; reflexivity.
Qed.

(** C6: when the user's skill level and the tool's difficulty level are
    both among beginner (rank 1), intermediate (rank 2) and advanced
    (rank 3), the skill-match score is 1.0 when the tool's rank minus the
    user's rank is 1, 0.8 when it is 0, 0.6 when it is -1, and 0.3
    otherwise. *)
Theorem skill_match_table tool user_context (user_rank tool_rank : Z) :
  Spec.level_rank (skill_level user_context) = Some user_rank ->
  Spec.level_rank (difficulty_level tool) = Some tool_rank ->
  _calculate_skill_match tool user_context
  = Spec.skill_match_of_diff (tool_rank - user_rank)
  /\ ((tool_rank - user_rank = 1)%Z -> _calculate_skill_match tool user_context = 1.0)
  /\ ((tool_rank - user_rank = 0)%Z -> _calculate_skill_match tool user_context = 0.8)
  /\ ((tool_rank - user_rank = -1)%Z -> _calculate_skill_match tool user_context = 0.6)
  /\ ((tool_rank - user_rank <> 1)%Z -> (tool_rank - user_rank <> 0)%Z ->
      (tool_rank - user_rank <> -1)%Z ->
      _calculate_skill_match tool user_context = 0.3).
Proof.
  intros Hu Ht.
  assert (Heq : _calculate_skill_match tool user_context
                = Spec.skill_match_of_diff (tool_rank - user_rank)).
  { unfold _calculate_skill_match. unfold Spec.level_rank in Hu, Ht.
    destruct (String.eqb_spec (skill_level user_context) "beginner") as [->|_];
      [|destruct (String.eqb_spec (skill_level user_context) "intermediate") as [->|_];
        [|destruct (String.eqb_spec (skill_level user_context) "advanced") as [->|_];
          [|discriminate]]];
    (destruct (String.eqb_spec (difficulty_level tool) "beginner") as [->|_];
      [|destruct (String.eqb_spec (difficulty_level tool) "intermediate") as [->|_];
        [|destruct (String.eqb_spec (difficulty_level tool) "advanced") as [->|_];
          [|discriminate]]]);
    injection Hu as <-; injection Ht as <-; reflexivity. }
  rewrite Heq. unfold Spec.skill_match_of_diff.
  split; [reflexivity|]. repeat split.
  - intros ->. reflexivity.
  - intros ->. reflexivity.
  - intros ->. reflexivity.
  - intros H1 H0 Hm.
    destruct (Z.eqb_spec (tool_rank - user_rank) 1); [contradiction|].
    destruct (Z.eqb_spec (tool_rank - user_rank) 0); [contradiction|].
    destruct (Z.eqb_spec (tool_rank - user_rank) (-1)); [contradiction|].
    reflexivity.
Qed.

(** C7: the domain-relevance scorer always returns (its division is never
    by zero); its value is the number of lowercase whitespace-delimited
    tokens of [work_domain] that occur in the lowercased text
    [category + " " + joined use_cases], divided by the number of tokens
    and capped at 1.0; with zero tokens the value is 0.5, which is not
    zero. *)
Theorem domain_relevance_keyword_overlap tool user_context :
  exists score,
    _calculate_domain_relevance tool user_context = Returned score /\
    score == Spec.domain_relevance tool user_context /\
    score <= 1.0 /\
    (Spec.domain_tokens user_context = [] -> score = 0.5 /\ ~ score == 0) /\
    (work_domain user_context = "" -> score = 0.5).
Proof.
  destruct (domain_relevance_returns tool user_context) as (score & D & Hspec).
  exists score. split; [exact D|]. split; [exact Hspec|].
  unfold _calculate_domain_relevance in D. unfold Spec.domain_tokens.
  destruct (Py.split (Py.lower (work_domain user_context))) as [|token tokens] eqn:E.
  - injection D as <-. split; [discriminate|]. split.
    + intros _. split; [reflexivity | discriminate].
    + reflexivity.
  - destruct (Py.truediv _ _) as [ratio|]; [|discriminate].
    injection D as <-. split; [apply PyFacts.min_le_r|].
    split; [discriminate|].
    intros Hw. rewrite Hw in E. discriminate E.
Qed.

(** C8: [_generate_reasoning] always returns a string and never raises;
    when the text-generation call fails it returns exactly
    "Recommended based on relevance to your {work_domain} work and
    {skill_level} skill level.", which is never empty; and when every
    text-generation call of a request fails, every returned
    recommendation carries that text. *)
Theorem reasoning_fallback tool user_context relevance tr :
  (exists text tr',
     _generate_reasoning format_2f self tool user_context relevance tr
     = (Returned text, tr')) /\
  (client self tr (reasoning_prompt format_2f tool user_context relevance) = None ->
   fst (_generate_reasoning format_2f self tool user_context relevance tr)
   = Returned ("Recommended based on relevance to your " ++ work_domain user_context
               ++ " work and " ++ skill_level user_context ++ " skill level.")) /\
  "Recommended based on relevance to your " ++ work_domain user_context
    ++ " work and " ++ skill_level user_context ++ " skill level." <> "" /\
  (forall pattern_insights tools out tr',
     (forall t prompt, client self t prompt = None) ->
     generate_recommendations cosine_similarity float_str format_2f self
       user_context pattern_insights tools tr = (Returned out, tr') ->
     forall r, In r out ->
       reasoning r
       = "Recommended based on relevance to your " ++ work_domain user_context
         ++ " work and " ++ skill_level user_context ++ " skill level.").
Proof.
  split; [|split; [|split]].
  - rewrite generate_reasoning_returns. eauto.
  - intros E. rewrite generate_reasoning_returns, E. reflexivity.
  - discriminate.
  - intros pattern_insights tools out tr' Hnone Hrun r Hr.
    destruct (generate_recommendations_in _ _ _ _ _ _ _ _ _ _ Hrun r Hr)
      as (ue & t & _ & (te & dom & tr0 & _ & _ & _ & _ & _ & Hreason & _)).
    rewrite Hreason, Hnone. reflexivity.
Qed.

(** C10: a tool whose difficulty level is none of beginner, intermediate
    and advanced is scored as an intermediate tool: the skill match uses
    rank 2 for the tool, the learning time uses the multiplier 1.5, and
    the relevance score is still returned. *)
Theorem unknown_difficulty_defaults tool user_context :
  ~ known_level (difficulty_level tool) ->
  _calculate_skill_match tool user_context
  = _calculate_skill_match (with_difficulty_level tool "intermediate") user_context /\
  _calculate_skill_match tool user_context
  = Spec.skill_match_of_diff
      (2 - Py.get [("beginner", 1%Z); ("intermediate", 2%Z); ("advanced", 3%Z)]
             (skill_level user_context) 1%Z) /\
  _estimate_learning_time tool user_context
  = _estimate_learning_time (with_difficulty_level tool "intermediate") user_context /\
  _estimate_learning_time tool user_context
  = Py.int (inject_Z (Py.get [("beginner", 8%Z); ("intermediate", 4%Z); ("advanced", 2%Z)]
                        (skill_level user_context) 6%Z) * 1.5) /\
  (forall pattern_insights user_embedding tool_embedding tr,
     embedding_model self (tool_profile tool) = Some tool_embedding ->
     exists score tr',
       _calculate_relevance_score cosine_similarity self tool user_context
         pattern_insights user_embedding tr = (Returned score, tr')).
Proof.
  intros Hunknown.
  assert (Hget : forall (V : Type) (b i a d : V),
             Py.get [("beginner", b); ("intermediate", i); ("advanced", a)]
               (difficulty_level tool) d = d).
  { intros V b i a d. apply PyFacts.get_unknown. intros k v Hin Hk.
    apply Hunknown. unfold known_level. simpl in Hin.
    destruct Hin as [H|[H|[H|[]]]]; injection H as <- _; auto. }
  unfold _calculate_skill_match, _estimate_learning_time. rewrite !Hget.
  split; [reflexivity|]. split; [|split; [reflexivity|split; [reflexivity|]]].
  - unfold Spec.skill_match_of_diff.
    set (u := Py.get _ (skill_level user_context) 1%Z).
    destruct (Z.eqb_spec 2 (u + 1)), (Z.eqb_spec (2 - u) 1); try lia;
      [reflexivity|].
    destruct (Z.eqb_spec 2 u), (Z.eqb_spec (2 - u) 0); try lia; [reflexivity|].
    destruct (Z.eqb_spec 2 (u - 1)), (Z.eqb_spec (2 - u) (-1)); try lia; reflexivity.
  - intros pattern_insights user_embedding tool_embedding tr E.
    destruct (domain_relevance_returns tool user_context) as (dom & D & _).
    rewrite (relevance_score_returns _ _ _ _ _ _ _ _ _ E D). eauto.
Qed.

End ScorerClaims.

(** ** Ranges of the derived fields *)

Lemma skill_match_range tool user_context :
  0.3 <= _calculate_skill_match tool user_context <= 1.0.
Proof.
  unfold _calculate_skill_match.
  repeat match goal with
         | |- context [if ?b then _ else _] => destruct b
         end; split; discriminate.
Qed.

Lemma domain_relevance_nonneg tool user_context score :
  _calculate_domain_relevance tool user_context = Returned score -> 0 <= score.
Proof.
  unfold _calculate_domain_relevance.
  destruct (Py.split (Py.lower (work_domain user_context))) as [|token tokens].
  - intros H. injection H as <-. discriminate.
  - unfold Py.truediv.
    destruct (Z.eqb_spec (Z.of_nat (length (token :: tokens))) 0) as [|Hn];
      [discriminate|].
    intros H. injection H as <-. apply PyFacts.min_glb; [|discriminate].
    rewrite PyFacts.sum_ones_count. apply Qle_shift_div_l.
    + change 0 with (inject_Z 0). rewrite <- Zlt_Qlt. lia.
    + rewrite Qmult_0_l. change 0 with (inject_Z 0). rewrite <- Zle_Qle. lia.
Qed.

Lemma learning_time_nonneg tool user_context :
  (0 <= _estimate_learning_time tool user_context)%Z.
Proof.
  unfold _estimate_learning_time, Py.get.
  repeat match goal with
         | |- context [if ?b then _ else _] => destruct b
         end; discriminate.
Qed.

(** ** The ranking request *)

Section RankingClaims.

Variable cosine_similarity : list Q -> list Q -> Q.
Variable float_str : Q -> string.
Variable format_2f : Q -> string.
Variable self : RecommendationEngine.

(** C2, as amended: the request always returns, and every returned
    recommendation has [relevance_score <= 1], [confidence] equal to
    [min(relevance_score * 1.2, 1.0)] and at most 1, an implementation
    complexity in 1..5 and a non-negative learning time; the relevance
    score has no lower clamp: it is the capped weighted sum for one of the
    candidate tools, and it is non-negative whenever the cosine similarity
    between the embedding of the user profile and the embedding of that
    tool's profile is non-negative; [0 <= confidence] and
    [relevance_score <= confidence] hold when the relevance score is
    non-negative. *)
Theorem recommendation_bounds user_context pattern_insights tools tr :
  (exists out tr',
     generate_recommendations cosine_similarity float_str format_2f self
       user_context pattern_insights tools tr = (Returned out, tr')) /\
  (forall out tr',
     generate_recommendations cosine_similarity float_str format_2f self
       user_context pattern_insights tools tr = (Returned out, tr') ->
     forall r, In r out ->
       relevance_score r <= 1.0 /\
       confidence r == Qmin (relevance_score r * 1.2) 1.0 /\
       confidence r <= 1.0 /\
       (exists tool user_embedding tool_embedding domain_relevance,
          In tool tools /\
          tool_id r = id tool /\
          embedding_model self
            (_create_user_profile float_str user_context pattern_insights)
          = Some user_embedding /\
          embedding_model self (tool_profile tool) = Some tool_embedding /\
          _calculate_domain_relevance tool user_context = Returned domain_relevance /\
          relevance_score r
          == Spec.relevance (cosine_similarity user_embedding tool_embedding)
               (_calculate_skill_match tool user_context)
               domain_relevance
               (_calculate_tool_compatibility tool user_context) /\
          (0 <= cosine_similarity user_embedding tool_embedding ->
           0 <= relevance_score r)) /\
       (0 <= relevance_score r ->
        0 <= confidence r /\ relevance_score r <= confidence r) /\
       (1 <= implementation_complexity r <= 5)%Z /\
       (0 <= learning_time_hours r)%Z).
Proof.
  split; [apply generate_recommendations_total|].
  intros out tr' Hrun r Hr.
  destruct (generate_recommendations_in_embedded _ _ _ _ _ _ _ _ _ _ Hrun r Hr)
    as (ue & tool & Eu & Htool &
        (te & dom & tr0 & Et & Hdom & Hid & Hrel & Hconf & _ & Hcx & _ & Hlt)).
  assert (Hle : relevance_score r <= 1.0)
    by (rewrite Hrel; apply PyFacts.min_le_r).
  split; [exact Hle|].
  split; [rewrite Hconf; apply PyFacts.min_Qmin|].
  split; [rewrite Hconf; apply PyFacts.min_le_r|].
  split; [|split; [|split]].
  - exists tool, ue, te, dom.
    split; [exact Htool|]. split; [exact Hid|]. split; [exact Eu|].
    split; [exact Et|]. split; [exact Hdom|]. split.
    + rewrite Hrel, PyFacts.min_Qmin. unfold Spec.relevance.
      assert (H : cosine_similarity ue te * 0.3
                  + _calculate_skill_match tool user_context * 0.25
                  + dom * 0.25
                  + _calculate_tool_compatibility tool user_context * 0.2
                  == 0.30 * cosine_similarity ue te
                     + 0.25 * _calculate_skill_match tool user_context
                     + 0.25 * dom
                     + 0.20 * _calculate_tool_compatibility tool user_context)
        by ring.
      now rewrite H.
    + intros Hs. rewrite Hrel. apply PyFacts.min_glb; [|discriminate].
      pose proof (skill_match_range tool user_context) as [Hk _].
      pose proof (domain_relevance_nonneg _ _ _ Hdom) as Hd.
      unfold _calculate_tool_compatibility. lra.
  - intros H0. rewrite Hconf. split.
    + apply PyFacts.min_glb; [lra | discriminate].
    + apply PyFacts.min_glb; [lra | exact Hle].
  - rewrite Hcx. apply PyFacts.clamp_bounds.
  - rewrite Hlt. apply learning_time_nonneg.
Qed.

(** C3: when the embedding collaborator answers for the user profile and
    for every tool profile, the request returns min(10, N)
    recommendations for N candidate tools, in descending order of
    [relevance_score]; among recommendations of equal score the order is
    the catalog order: for each score value, the returned recommendations
    with that score are an initial segment of the catalog-ordered scored
    tools with that score. *)
Theorem ranking_sorted_stable_truncated user_context pattern_insights tools
    user_embedding tr :
  embedding_model self (_create_user_profile float_str user_context pattern_insights)
    = Some user_embedding ->
  (forall tool, In tool tools -> embedding_model self (tool_profile tool) <> None) ->
  exists out scored tr',
    generate_recommendations cosine_similarity float_str format_2f self
      user_context pattern_insights tools tr = (Returned out, tr') /\
    Forall2 (scored_as cosine_similarity format_2f self user_context user_embedding)
      tools scored /\
    length out = Nat.min 10 (length tools) /\
    (forall i j ri rj,
       (i < j)%nat -> nth_error out i = Some ri -> nth_error out j = Some rj ->
       relevance_score rj <= relevance_score ri) /\
    (forall s, prefix_of (with_score s out) (with_score s scored)) /\
    (forall r, In r out -> In r scored).
Proof.
  intros Eu Hok.
  destruct (generate_recommendations_ranks cosine_similarity float_str format_2f self
              user_context pattern_insights tools user_embedding tr Eu Hok)
    as (scored & tr' & Hrun & Hall & _).
  exists (firstn 10 (sort_reverse relevance_score scored)), scored, tr'.
  split; [exact Hrun|]. split; [exact Hall|]. split; [|split; [|split]].
  - rewrite length_firstn, sort_reverse_length.
    now rewrite (Forall2_length Hall).
  - intros i j ri rj Hij Hi Hj.
    apply (descending_nth relevance_score
             (firstn 10 (sort_reverse relevance_score scored)) i j ri rj);
      try assumption.
    apply descending_firstn, sort_reverse_descending.
  - intros s. unfold with_score.
    rewrite <- (sort_reverse_stable relevance_score s scored).
    apply filter_firstn_prefix.
  - intros r Hr. apply in_firstn in Hr.
    apply (Permutation_in _ (sort_reverse_perm relevance_score scored) Hr).
Qed.

(** C4, as amended: embedding failures are not isolated.  When the
    embedding call fails for the user profile or for the profile of any
    candidate tool, the request catches the failure and returns the empty
    list; no exception reaches the caller and no tool is scored with a
    substituted semantic term. *)
Theorem embedding_failure_empties_batch user_context pattern_insights tools tr :
  embedding_model self (_create_user_profile float_str user_context pattern_insights)
    = None
  \/ (exists tool, In tool tools /\ embedding_model self (tool_profile tool) = None) ->
  exists tr',
    generate_recommendations cosine_similarity float_str format_2f self
      user_context pattern_insights tools tr = (Returned [], tr').
Proof. apply generate_recommendations_fails. Qed.

(** C5, as amended: the text-generation collaborator is called inside the
    scoring loop, once for each candidate tool and before the sort: a
    request makes at most N text-generation calls for N candidate tools,
    and exactly N when every embedding is computed. *)
Theorem text_generation_once_per_tool user_context pattern_insights tools tr :
  (text_calls (snd (generate_recommendations cosine_similarity float_str format_2f
                      self user_context pattern_insights tools tr))
   <= text_calls tr + length tools)%nat /\
  (forall user_embedding,
     embedding_model self (_create_user_profile float_str user_context pattern_insights)
       = Some user_embedding ->
     (forall tool, In tool tools -> embedding_model self (tool_profile tool) <> None) ->
     text_calls (snd (generate_recommendations cosine_similarity float_str format_2f
                        self user_context pattern_insights tools tr))
     = (text_calls tr + length tools)%nat).
Proof.
  split; [apply generate_recommendations_text_calls|].
  intros ue Eu Hok.
  destruct (generate_recommendations_ranks cosine_similarity float_str format_2f self
              user_context pattern_insights tools ue tr Eu Hok)
    as (scored & tr' & Hrun & _ & Hcalls).
  rewrite Hrun. exact Hcalls.
Qed.

(** C9, as amended: a user whose skill level is none of beginner,
    intermediate and advanced is never rejected, and each consumer has
    its own default: the skill match uses rank 1 (beginner), the
    implementation-complexity adjustment is 0 (as for intermediate), and
    the learning-time base is 6 hours; the request still returns. *)
Theorem unknown_skill_level_defaults tool user_context :
  ~ known_level (skill_level user_context) ->
  _calculate_skill_match tool user_context
  = _calculate_skill_match tool (with_skill_level user_context "beginner") /\
  _calculate_skill_match tool user_context
  = Spec.skill_match_of_diff
      (Py.get [("beginner", 1%Z); ("intermediate", 2%Z); ("advanced", 3%Z)]
         (difficulty_level tool) 2%Z - 1) /\
  _calculate_implementation_complexity tool user_context
  = Py.zmax 1 (Py.zmin 5 (integration_complexity tool + 0)) /\
  _calculate_implementation_complexity tool user_context
  = _calculate_implementation_complexity tool
      (with_skill_level user_context "intermediate") /\
  _estimate_learning_time tool user_context
  = Py.int (inject_Z 6
            * Py.get [("beginner", 1.0); ("intermediate", 1.5); ("advanced", 2.0)]
                (difficulty_level tool) 1.5) /\
  (forall pattern_insights tools tr,
     exists out tr',
       generate_recommendations cosine_similarity float_str format_2f self
         user_context pattern_insights tools tr = (Returned out, tr')).
Proof.
  intros Hunknown.
  assert (Hget : forall (V : Type) (b i a d : V),
             Py.get [("beginner", b); ("intermediate", i); ("advanced", a)]
               (skill_level user_context) d = d).
  { intros V b i a d. apply PyFacts.get_unknown. intros k v Hin Hk.
    apply Hunknown. unfold known_level. simpl in Hin.
    destruct Hin as [H|[H|[H|[]]]]; injection H as <- _; auto. }
  unfold _calculate_skill_match, _calculate_implementation_complexity,
    _estimate_learning_time.
  rewrite !Hget.
  split; [reflexivity|]. split; [|repeat split].
  - unfold Spec.skill_match_of_diff.
    set (t := Py.get _ (difficulty_level tool) 2%Z).
    destruct (Z.eqb_spec t (1 + 1)), (Z.eqb_spec (t - 1) 1); try lia;
      [reflexivity|].
    destruct (Z.eqb_spec t 1), (Z.eqb_spec (t - 1) 0); try lia; [reflexivity|].
    destruct (Z.eqb_spec t (1 - 1)), (Z.eqb_spec (t - 1) (-1)); try lia; reflexivity.
  - intros pattern_insights tools tr. apply generate_recommendations_total.
Qed.

End RankingClaims.

(** ** The claims on concrete requests *)

(** The rows of the skill-match table for an intermediate user. *)
Example skill_match_rows :
  _calculate_skill_match Sample.kubeflow Sample.analyst = 1.0 /\
  _calculate_skill_match Sample.claude3 Sample.analyst = 0.8 /\
  _calculate_skill_match Sample.gpt4 Sample.analyst = 0.6 /\
  _calculate_skill_match Sample.kubeflow Sample.novice = 0.3.
Proof. repeat split; reflexivity. Qed.

(** "cloud security" against the category "security" and the use case
    "cloud audits": both tokens occur. *)
Example domain_relevance_cloud_security :
  exists score,
    _calculate_domain_relevance Sample.security_tool Sample.cloud_engineer
    = Returned score /\ score == 1.0.
Proof. eexists. split; [vm_compute; reflexivity | reflexivity]. Qed.

(** A token counts when it occurs inside a longer word of the tool text. *)
Example domain_relevance_substring :
  exists score,
    _calculate_domain_relevance Sample.security_tool
      {| user_id := "5c0e1a7b93d2f468"; activity_patterns := [];
         skill_level := "beginner"; preferences := []; goals := [];
         work_domain := "Audit SEC"; tools_used := []; productivity_score := 0.9 |}
    = Returned score /\ score == 1.0.
Proof. eexists. split; [vm_compute; reflexivity | reflexivity]. Qed.

Lemma relevance_score_weighted_sum_witness :
  embedding_model Sample.engine (tool_profile Sample.gpt4) = Some [1] /\
  exists domain_relevance score tr',
    _calculate_domain_relevance Sample.gpt4 Sample.analyst = Returned domain_relevance /\
    _calculate_relevance_score Sample.cosine_1d Sample.engine Sample.gpt4 Sample.analyst
      Sample.insights [1] [] = (Returned score, tr') /\
    score == Spec.relevance (Sample.cosine_1d [1] [1])
               (_calculate_skill_match Sample.gpt4 Sample.analyst)
               domain_relevance
               (_calculate_tool_compatibility Sample.gpt4 Sample.analyst) /\
    score == Qmin (0.30 * Sample.cosine_1d [1] [1]
                   + 0.25 * _calculate_skill_match Sample.gpt4 Sample.analyst
                   + 0.25 * domain_relevance
                   + 0.20 * _calculate_tool_compatibility Sample.gpt4 Sample.analyst) 1.0 /\
    0.30 + 0.25 + 0.25 + 0.20 == 1.0.
Proof.
  split; [reflexivity|].
  apply (relevance_score_weighted_sum Sample.cosine_1d Sample.engine Sample.gpt4
           Sample.analyst Sample.insights [1] [1] []).
  reflexivity.
Defined.

Lemma skill_match_table_witness :
  Spec.level_rank (skill_level Sample.analyst) = Some 2%Z /\
  Spec.level_rank (difficulty_level Sample.kubeflow) = Some 3%Z /\
  _calculate_skill_match Sample.kubeflow Sample.analyst
  = Spec.skill_match_of_diff (3 - 2) /\
  _calculate_skill_match Sample.kubeflow Sample.analyst = 1.0.
Proof.
  split; [reflexivity|]. split; [reflexivity|].
  destruct (skill_match_table Sample.kubeflow Sample.analyst 2 3 eq_refl eq_refl)
    as (Htable & Hone & _).
  split; [exact Htable | apply Hone; reflexivity].
Defined.

Lemma domain_relevance_keyword_overlap_witness :
  work_domain Sample.unset_domain = "" /\
  exists score,
    _calculate_domain_relevance Sample.security_tool Sample.unset_domain
    = Returned score /\ score = 0.5 /\ ~ score == 0.
Proof.
  split; [reflexivity|].
  destruct (domain_relevance_keyword_overlap Sample.security_tool Sample.unset_domain)
    as (score & Hret & _ & _ & Hzero & Hempty).
  exists score. split; [exact Hret|]. split.
  - apply Hempty. reflexivity.
  - apply Hzero. reflexivity.
Defined.

Lemma reasoning_fallback_witness :
  client Sample.engine_no_text []
    (reasoning_prompt Sample.format_2f Sample.gpt4 Sample.analyst 0.715) = None /\
  fst (_generate_reasoning Sample.format_2f Sample.engine_no_text Sample.gpt4
         Sample.analyst 0.715 [])
  = Returned
      "Recommended based on relevance to your Data Analysis work and intermediate skill level.".
Proof.
  split; [reflexivity|].
  destruct (reasoning_fallback Sample.cosine_1d Sample.float_str Sample.format_2f
              Sample.engine_no_text Sample.gpt4 Sample.analyst 0.715 [])
    as (_ & Hfallback & _).
  apply Hfallback. reflexivity.
Defined.

Lemma unknown_difficulty_defaults_witness :
  ~ known_level (difficulty_level Sample.whisper) /\
  _calculate_skill_match Sample.whisper Sample.analyst
  = _calculate_skill_match (with_difficulty_level Sample.whisper "intermediate")
      Sample.analyst /\
  _estimate_learning_time Sample.whisper Sample.analyst
  = _estimate_learning_time (with_difficulty_level Sample.whisper "intermediate")
      Sample.analyst.
Proof.
  assert (H : ~ known_level (difficulty_level Sample.whisper))
    by (intros [H|[H|H]]; discriminate H).
  split; [exact H|].
  destruct (unknown_difficulty_defaults Sample.cosine_1d Sample.engine
              Sample.whisper Sample.analyst H) as (Hskill & _ & Htime & _).
  split; [exact Hskill | exact Htime].
Defined.

(** C2 as stated fails: with a tool embedding opposite to the user's
    (cosine similarity -1), a beginner and an advanced tool of another
    domain, the returned relevance score is -0.085 and the confidence
    -0.102, below zero and below the relevance score. *)
Lemma negative_relevance_counterexample :
  exists out tr' r,
    Sample.run Sample.engine_opposed Sample.novice Sample.insights [Sample.kubeflow]
    = (Returned out, tr') /\
    In r out /\
    relevance_score r == -0.085 /\
    confidence r == -0.102 /\
    ~ 0 <= relevance_score r /\
    ~ 0 <= confidence r /\
    ~ relevance_score r <= confidence r.
Proof.
  do 3 eexists. split; [vm_compute; reflexivity|].
  split; [left; reflexivity|].
  repeat split; try reflexivity; intros H; vm_compute in H; now apply H.
Qed.

Lemma recommendation_bounds_witness :
  exists out tr' r,
    Sample.run Sample.engine_mixed Sample.novice Sample.insights Sample.catalog
    = (Returned out, tr') /\
    In r out /\
    tool_id r = id Sample.gpt4 /\
    0 <= Sample.cosine_1d [1] [1] /\
    0 <= relevance_score r /\
    relevance_score r <= 1.0 /\
    confidence r == Qmin (relevance_score r * 1.2) 1.0 /\
    0 <= confidence r <= 1.0 /\
    relevance_score r <= confidence r /\
    (1 <= implementation_complexity r <= 5)%Z /\
    (0 <= learning_time_hours r)%Z.
Proof.
  do 3 eexists.
  assert (Hrun : Sample.run Sample.engine_mixed Sample.novice Sample.insights
                   Sample.catalog = (Returned ?[out], ?[tr']))
    by (vm_compute; reflexivity).
  match type of Hrun with
  | _ = (Returned (?first :: ?others), _) =>
      destruct (proj2 (recommendation_bounds Sample.cosine_1d Sample.float_str
                         Sample.format_2f Sample.engine_mixed Sample.novice
                         Sample.insights Sample.catalog [])
                  _ _ Hrun first (or_introl eq_refl))
        as (Hle & Hconf & Hcap &
            (tool & ue & te & dom & Htool & Hid & Eu & Et & _ & _ & Hsign) &
            Hinflate & Hcx & Hlt);
      assert (Hnonneg : 0 <= relevance_score first)
  end.
  { vm_compute in Eu. injection Eu as <-.
    destruct Htool as [<-|[<-|[<-|[<-|[]]]]]; try discriminate Hid.
    vm_compute in Et. injection Et as <-. apply Hsign. discriminate. }
  assert (Hcos : 0 <= Sample.cosine_1d [1] [1]) by discriminate.
  destruct (Hinflate Hnonneg) as [Hc0 Hc1].
  split; [exact Hrun|]. split; [left; reflexivity|]. split; [reflexivity|].
  split; [exact Hcos|]. split; [exact Hnonneg|]. split; [exact Hle|].
  split; [exact Hconf|]. split; [split; assumption|]. split; [exact Hc1|].
  split; assumption.
Defined.

Lemma ranking_sorted_stable_truncated_witness :
  embedding_model Sample.engine
    (_create_user_profile Sample.float_str Sample.analyst Sample.insights) = Some [1] /\
  (forall tool, In tool Sample.catalog ->
     embedding_model Sample.engine (tool_profile tool) <> None) /\
  exists out scored tr',
    Sample.run Sample.engine Sample.analyst Sample.insights Sample.catalog
    = (Returned out, tr') /\
    Forall2 (scored_as Sample.cosine_1d Sample.format_2f Sample.engine Sample.analyst [1])
      Sample.catalog scored /\
    length out = Nat.min 10 (length Sample.catalog) /\
    (forall i j ri rj,
       (i < j)%nat -> nth_error out i = Some ri -> nth_error out j = Some rj ->
       relevance_score rj <= relevance_score ri) /\
    (forall s, prefix_of (with_score s out) (with_score s scored)) /\
    (forall r, In r out -> In r scored).
Proof.
  assert (Hok : forall tool, In tool Sample.catalog ->
                  embedding_model Sample.engine (tool_profile tool) <> None)
    by (intros tool _; discriminate).
  split; [reflexivity|]. split; [exact Hok|].
  apply (ranking_sorted_stable_truncated Sample.cosine_1d Sample.float_str
           Sample.format_2f Sample.engine Sample.analyst Sample.insights
           Sample.catalog [1] [] eq_refl Hok).
Defined.

(** C4 as stated fails: when the embedding model raises on the profile of
    Claude 3 only, GPT-4 is not returned either, although its profile can
    be embedded; and when it raises on the user profile, the request
    returns the empty list instead of two recommendations scored without
    the semantic term. *)
Lemma embedding_failure_counterexample :
  embedding_model Sample.engine_no_claude (tool_profile Sample.gpt4) = Some [1] /\
  embedding_model Sample.engine_no_claude (tool_profile Sample.claude3) = None /\
  fst (Sample.run Sample.engine_no_claude Sample.analyst Sample.insights
         [Sample.gpt4; Sample.claude3]) = Returned [] /\
  embedding_model Sample.engine_no_user
    (_create_user_profile Sample.float_str Sample.analyst Sample.insights) = None /\
  fst (Sample.run Sample.engine_no_user Sample.analyst Sample.insights
         [Sample.gpt4; Sample.claude3]) = Returned [].
Proof. repeat split; vm_compute; reflexivity. Qed.

Lemma embedding_failure_empties_batch_witness :
  (exists tool,
     In tool [Sample.gpt4; Sample.claude3] /\
     embedding_model Sample.engine_no_claude (tool_profile tool) = None) /\
  exists tr',
    Sample.run Sample.engine_no_claude Sample.analyst Sample.insights
      [Sample.gpt4; Sample.claude3] = (Returned [], tr').
Proof.
  assert (H : exists tool,
             In tool [Sample.gpt4; Sample.claude3] /\
             embedding_model Sample.engine_no_claude (tool_profile tool) = None)
    by (exists Sample.claude3; split; [right; left; reflexivity | reflexivity]).
  split; [exact H|].
  apply (embedding_failure_empties_batch Sample.cosine_1d Sample.float_str
           Sample.format_2f Sample.engine_no_claude Sample.analyst Sample.insights
           [Sample.gpt4; Sample.claude3] [] (or_intror H)).
Defined.

(** C5 as stated fails: a request with four candidate tools makes four
    text-generation calls, one of them for Whisper, which ranks fourth. *)
Lemma text_generation_counterexample :
  text_calls (snd (Sample.run Sample.engine Sample.analyst Sample.insights
                     Sample.catalog)) = 4%nat /\
  (exists out tr' r,
     Sample.run Sample.engine Sample.analyst Sample.insights Sample.catalog
     = (Returned out, tr') /\
     nth_error out 3 = Some r /\ tool_id r = id Sample.whisper /\
     In (MessagesCreateCall
           (reasoning_prompt Sample.format_2f Sample.whisper Sample.analyst
              (relevance_score r))) tr').
Proof.
  split; [vm_compute; reflexivity|].
  do 3 eexists. split; [vm_compute; reflexivity|].
  split; [reflexivity|]. split; [reflexivity|].
  do 8 right. left. vm_compute. reflexivity.
Qed.

Lemma text_generation_once_per_tool_witness :
  embedding_model Sample.engine
    (_create_user_profile Sample.float_str Sample.analyst Sample.insights) = Some [1] /\
  text_calls (snd (Sample.run Sample.engine Sample.analyst Sample.insights
                     Sample.catalog))
  = (text_calls [] + length Sample.catalog)%nat.
Proof.
  split; [reflexivity|].
  apply (proj2 (text_generation_once_per_tool Sample.cosine_1d Sample.float_str
                  Sample.format_2f Sample.engine Sample.analyst Sample.insights
                  Sample.catalog []) [1] eq_refl).
  intros tool _. discriminate.
Defined.

(** C9 as stated fails: for the skill level "expert" the implementation
    complexity and the learning time are not those of a beginner. *)
Lemma unknown_skill_level_counterexample :
  ~ known_level (skill_level Sample.guru) /\
  _calculate_implementation_complexity Sample.gpt4 Sample.guru = 2%Z /\
  _calculate_implementation_complexity Sample.gpt4
    (with_skill_level Sample.guru "beginner") = 3%Z /\
  _estimate_learning_time Sample.gpt4 Sample.guru = 6%Z /\
  _estimate_learning_time Sample.gpt4 (with_skill_level Sample.guru "beginner") = 8%Z.
Proof.
  split; [intros [H|[H|H]]; discriminate H|].
  repeat split; reflexivity.
Qed.

Lemma unknown_skill_level_defaults_witness :
  ~ known_level (skill_level Sample.guru) /\
  _calculate_skill_match Sample.claude3 Sample.guru
  = _calculate_skill_match Sample.claude3 (with_skill_level Sample.guru "beginner") /\
  _calculate_implementation_complexity Sample.claude3 Sample.guru
  = _calculate_implementation_complexity Sample.claude3
      (with_skill_level Sample.guru "intermediate") /\
  _estimate_learning_time Sample.claude3 Sample.guru
  = Py.int (inject_Z 6
            * Py.get [("beginner", 1.0); ("intermediate", 1.5); ("advanced", 2.0)]
                (difficulty_level Sample.claude3) 1.5).
Proof.
  assert (H : ~ known_level (skill_level Sample.guru))
    by (intros [H|[H|H]]; discriminate H).
  split; [exact H|].
  destruct (unknown_skill_level_defaults Sample.cosine_1d Sample.float_str
              Sample.format_2f Sample.engine Sample.claude3 Sample.guru H)
    as (Hskill & _ & _ & Hcomplexity & Htime & _).
  repeat split; assumption.
Defined.

(** * Further properties of the module *)

(** ** More facts on the built-ins, the sort and the scorers *)

Lemma py_lt_spec (a b : Q) : Py.lt a b = true <-> a < b.
Proof.
  unfold Py.lt. rewrite negb_true_iff. split.
  - intros E. apply Qnot_le_lt. rewrite <- Qle_bool_iff. congruence.
  - intros H. destruct (Qle_bool b a) eqn:E; [|reflexivity].
    apply Qle_bool_iff in E. exfalso. exact (Qlt_not_le _ _ H E).
Qed.

Lemma py_lt_false (a b : Q) : Py.lt a b = false <-> b <= a.
Proof.
  unfold Py.lt. rewrite negb_false_iff. apply Qle_bool_iff.
Qed.

Lemma py_min_le_l (a b : Q) : Py.min a b <= a.
Proof. rewrite PyFacts.min_Qmin. apply Q.le_min_l. Qed.

Lemma py_min_cases (a b : Q) :
  (a <= b /\ Py.min a b = a) \/ (b < a /\ Py.min a b = b).
Proof.
  unfold Py.min. destruct (Qle_bool a b) eqn:E.
  - left. split; [now apply Qle_bool_iff | reflexivity].
  - right. split; [|reflexivity].
    apply Qnot_le_lt. rewrite <- Qle_bool_iff. congruence.
Qed.

Lemma domain_relevance_le_1 tool user_context score :
  _calculate_domain_relevance tool user_context = Returned score -> score <= 1.
Proof.
  unfold _calculate_domain_relevance.
  destruct (Py.split (Py.lower (work_domain user_context))) as [|token tokens].
  - intros H. injection H as <-. discriminate.
  - destruct (Py.truediv _ _) as [ratio|]; [|discriminate].
    intros H. injection H as <-.
    eapply Qle_trans; [apply PyFacts.min_le_r | discriminate].
Qed.

Lemma descending_app_le {A : Type} (key : A -> Q) (l1 l2 : list A) :
  descending key (l1 ++ l2)%list ->
  forall a b, In a l1 -> In b l2 -> key b <= key a.
Proof.
  unfold descending. induction l1 as [|x l1 IH]; intros Hs a b Ha Hb.
  - destruct Ha.
  - simpl in Hs. inversion Hs as [|? ? Hrest Hx]; subst.
    destruct Ha as [<-|Ha].
    + rewrite Forall_forall in Hx. apply Hx. apply in_or_app. now right.
    + now apply IH.
Qed.

Lemma encode_calls_app (tr1 tr2 : trace) :
  encode_calls (tr1 ++ tr2)%list = (encode_calls tr1 + encode_calls tr2)%nat.
Proof. unfold encode_calls. now rewrite filter_app, length_app. Qed.

Lemma text_prompts_app (tr1 tr2 : trace) :
  text_prompts (tr1 ++ tr2)%list = (text_prompts tr1 ++ text_prompts tr2)%list.
Proof.
  induction tr1 as [|[text|prompt] tr1 IH]; simpl; [reflexivity | exact IH |].
  now rewrite IH.
Qed.

Lemma scored_as_tool_id cosine_similarity format_2f self user_context user_embedding
    tools scored :
  Forall2 (scored_as cosine_similarity format_2f self user_context user_embedding)
    tools scored ->
  map tool_id scored = map id tools.
Proof.
  induction 1 as [|tool r tools scored Hs _ IH]; simpl; [reflexivity|].
  destruct Hs as (te & dom & tr0 & _ & _ & Hid & _). now rewrite Hid, IH.
Qed.

(** ** The request, step by step: the trace it leaves *)

Section TraceFacts.

Variable cosine_similarity : list Q -> list Q -> Q.
Variable float_str : Q -> string.
Variable format_2f : Q -> string.
Variable self : RecommendationEngine.

(** The loop only extends the trace. *)
Lemma score_tools_extends user_context pattern_insights user_embedding tools :
  forall recommendations tr,
  exists ext,
    snd (score_tools cosine_similarity format_2f self user_context pattern_insights
           user_embedding tools recommendations tr) = (tr ++ ext)%list.
Proof.
  induction tools as [|tool rest IH]; intros recommendations tr.
  - exists []. simpl. now rewrite app_nil_r.
  - simpl score_tools. unfold bind at 1.
    destruct (embedding_model self (tool_profile tool)) as [te|] eqn:E.
    + destruct (predict_impact_pure tool user_context) as (impact & _ & Himpact).
      destruct (domain_relevance_returns tool user_context) as (dom & D & _).
      rewrite (relevance_score_returns _ _ _ _ _ _ _ _ _ E D).
      unfold bind at 1. rewrite generate_reasoning_returns.
      unfold bind at 1. rewrite Himpact.
      match goal with
      | |- exists _, snd (score_tools _ _ _ _ _ _ _ ?acc ?tr2) = _ =>
          destruct (IH acc tr2) as (ext & Hext)
      end.
      rewrite Hext. rewrite <- !app_assoc. eexists. reflexivity.
    + rewrite (relevance_score_raises _ _ _ _ _ _ _ E). simpl. eexists. reflexivity.
Qed.

(** The loop when every tool profile can be embedded: one embedding call
    and one text-generation call per tool, the prompts in catalog order. *)
Lemma score_tools_trace user_context pattern_insights user_embedding tools :
  (forall tool, In tool tools -> embedding_model self (tool_profile tool) <> None) ->
  forall recommendations tr,
  exists scored ext,
    score_tools cosine_similarity format_2f self user_context pattern_insights
      user_embedding tools recommendations tr
    = (Returned (recommendations ++ scored)%list, (tr ++ ext)%list) /\
    Forall2 (scored_as cosine_similarity format_2f self user_context user_embedding)
      tools scored /\
    encode_calls ext = length tools /\
    text_prompts ext
    = map (fun p => reasoning_prompt format_2f (fst p) user_context
                      (relevance_score (snd p)))
        (combine tools scored).
Proof.
  induction tools as [|tool rest IH]; intros Hok recommendations tr.
  - exists [], []. simpl. unfold ret. rewrite !app_nil_r.
    repeat split. constructor.
  - destruct (embedding_model self (tool_profile tool)) as [te|] eqn:E;
      [|exfalso; apply (Hok tool); [now left | exact E]].
    destruct (predict_impact_pure tool user_context) as (impact & _ & Himpact).
    destruct (domain_relevance_returns tool user_context) as (dom & D & _).
    simpl score_tools. unfold bind at 1.
    rewrite (relevance_score_returns _ _ _ _ _ _ _ _ _ E D).
    unfold bind at 1. rewrite generate_reasoning_returns.
    unfold bind at 1. rewrite Himpact.
    match goal with
    | |- exists _ _, score_tools _ _ _ _ _ _ _ (_ ++ [?r])%list ?tr2 = _ /\ _ =>
        destruct (IH (fun x Hx => Hok x (or_intror Hx)) (recommendations ++ [r])%list tr2)
          as (scored & ext & Hrun & Hall & Hencode & Hprompts);
        exists (r :: scored);
        exists (EncodeCall (tool_profile tool)
                :: MessagesCreateCall
                     (reasoning_prompt format_2f tool user_context (relevance_score r))
                :: ext)
    end.
    split; [|split; [|split]].
    + rewrite Hrun. rewrite <- !app_assoc. reflexivity.
    + constructor; [|exact Hall].
      exists te, dom, (tr ++ [EncodeCall (tool_profile tool)])%list. simpl.
      repeat split; try reflexivity; try assumption. apply Himpact.
    + unfold encode_calls in *. simpl. now rewrite Hencode.
    + simpl. now rewrite Hprompts.
Qed.

Lemma generate_recommendations_trace user_context pattern_insights tools
    user_embedding tr :
  embedding_model self (_create_user_profile float_str user_context pattern_insights)
    = Some user_embedding ->
  (forall tool, In tool tools -> embedding_model self (tool_profile tool) <> None) ->
  exists scored ext,
    generate_recommendations cosine_similarity float_str format_2f self
      user_context pattern_insights tools tr
    = (Returned (firstn 10 (sort_reverse relevance_score scored)),
       (tr ++ EncodeCall (_create_user_profile float_str user_context pattern_insights)
           :: ext)%list) /\
    Forall2 (scored_as cosine_similarity format_2f self user_context user_embedding)
      tools scored /\
    encode_calls ext = length tools /\
    text_prompts ext
    = map (fun p => reasoning_prompt format_2f (fst p) user_context
                      (relevance_score (snd p)))
        (combine tools scored).
Proof.
  intros Eu Hok.
  unfold generate_recommendations, try_except, bind, encode. rewrite Eu.
  destruct (score_tools_trace user_context pattern_insights user_embedding tools Hok []
              (tr ++ [EncodeCall (_create_user_profile float_str user_context
                                    pattern_insights)])%list)
    as (scored & ext & Hrun & Hall & Hencode & Hprompts).
  rewrite Hrun. exists scored, ext. rewrite <- app_assoc. simpl.
  repeat split; assumption.
Qed.

End TraceFacts.

(** ** The derived fields *)

Lemma level_rank_cases (level : string) (rank : Z) :
  Spec.level_rank level = Some rank ->
  (level = "beginner" /\ rank = 1%Z) \/ (level = "intermediate" /\ rank = 2%Z)
  \/ (level = "advanced" /\ rank = 3%Z).
Proof.
  unfold Spec.level_rank.
  destruct (String.eqb_spec level "beginner") as [->|_];
    [intros H; injection H as <-; auto|].
  destruct (String.eqb_spec level "intermediate") as [->|_];
    [intros H; injection H as <-; auto|].
  destruct (String.eqb_spec level "advanced") as [->|_];
    [intros H; injection H as <-; auto | discriminate].
Qed.

(** X1 (impact tiers): [_predict_impact] always returns one of "High",
    "Medium" and "Low" and makes no collaborator call; it is "High" exactly
    when the productivity score is below 0.6 and the tool's rating above
    4.5, "Low" exactly when the productivity score is at least 0.8, and
    "Medium" otherwise. *)
Theorem predict_impact_tiers tool user_context tr :
  exists impact,
    _predict_impact tool user_context tr = (Returned impact, tr) /\
    (impact = "High" \/ impact = "Medium" \/ impact = "Low") /\
    (impact = "High" <->
     productivity_score user_context < 0.6 /\ 4.5 < user_rating tool) /\
    (impact = "Low" <-> 0.8 <= productivity_score user_context) /\
    (impact = "Medium" <->
     productivity_score user_context < 0.8 /\
     ~ (productivity_score user_context < 0.6 /\ 4.5 < user_rating tool)).
Proof.
  unfold _predict_impact.
  destruct (Py.lt (productivity_score user_context) 0.6) eqn:E6;
    destruct (Py.lt 4.5 (user_rating tool)) eqn:Er;
    destruct (Py.lt (productivity_score user_context) 0.8) eqn:E8;
    simpl; eexists; (split; [reflexivity|]);
    try apply py_lt_spec in E6; try apply py_lt_false in E6;
    try apply py_lt_spec in Er; try apply py_lt_false in Er;
    try apply py_lt_spec in E8; try apply py_lt_false in E8;
    (split; [auto|]);
    repeat split; intros; try discriminate; try lra;
    try (intros [H1 H2]; lra);
    match goal with
    | H : _ /\ _ |- _ => destruct H; try lra
    | _ => idtac
    end;
    try match goal with
        | H : ~ _ |- _ => exfalso; apply H; split; lra
        end.
Qed.

(** X2 (learning time): the estimate is always between 2 and 16 hours;
    between known levels it never decreases when the tool gets harder and
    the user less skilled. *)
Theorem learning_time_bounds_monotone tool user_context :
  (2 <= _estimate_learning_time tool user_context <= 16)%Z /\
  (forall tool' user_context' (d d' s s' : Z),
     Spec.level_rank (difficulty_level tool) = Some d ->
     Spec.level_rank (difficulty_level tool') = Some d' ->
     Spec.level_rank (skill_level user_context) = Some s ->
     Spec.level_rank (skill_level user_context') = Some s' ->
     (d <= d')%Z -> (s' <= s)%Z ->
     (_estimate_learning_time tool user_context
      <= _estimate_learning_time tool' user_context')%Z).
Proof.
  split.
  - unfold _estimate_learning_time, Py.get.
    repeat match goal with
           | |- context [if ?b then _ else _] => destruct b
           end; split; discriminate.
  - intros tool' user_context' d d' s s' Hd Hd' Hs Hs' Hle Hge.
    apply level_rank_cases in Hd, Hd', Hs, Hs'.
    unfold _estimate_learning_time.
    destruct Hd as [[-> ->]|[[-> ->]|[-> ->]]];
      destruct Hd' as [[-> ->]|[[-> ->]|[-> ->]]]; try lia;
      destruct Hs as [[-> ->]|[[-> ->]|[-> ->]]];
      destruct Hs' as [[-> ->]|[[-> ->]|[-> ->]]]; try lia;
      discriminate.
Qed.

(** X3 (implementation complexity): for the same tool the complexity of
    an advanced user is at most that of an intermediate user, which is at
    most that of a beginner, the three within two points; the complexity
    never decreases when the tool's integration complexity grows; and an
    integration complexity already in 1..5 is returned unchanged for an
    intermediate user. *)
Theorem implementation_complexity_order tool user_context :
  (_calculate_implementation_complexity tool (with_skill_level user_context "advanced")
   <= _calculate_implementation_complexity tool
        (with_skill_level user_context "intermediate"))%Z /\
  (_calculate_implementation_complexity tool (with_skill_level user_context "intermediate")
   <= _calculate_implementation_complexity tool
        (with_skill_level user_context "beginner"))%Z /\
  (_calculate_implementation_complexity tool (with_skill_level user_context "beginner")
   - _calculate_implementation_complexity tool
       (with_skill_level user_context "advanced") <= 2)%Z /\
  (forall c1 c2,
     (c1 <= c2)%Z ->
     (_calculate_implementation_complexity (with_integration_complexity tool c1)
        user_context
      <= _calculate_implementation_complexity (with_integration_complexity tool c2)
           user_context)%Z) /\
  ((1 <= integration_complexity tool <= 5)%Z ->
   _calculate_implementation_complexity tool
     (with_skill_level user_context "intermediate")
   = integration_complexity tool).
Proof.
  unfold _calculate_implementation_complexity.
  cbn [with_skill_level with_integration_complexity skill_level integration_complexity].
  change (Py.get [("beginner", 1%Z); ("intermediate", 0%Z); ("advanced", (-1)%Z)]
            "advanced" 0%Z) with (-1)%Z.
  change (Py.get [("beginner", 1%Z); ("intermediate", 0%Z); ("advanced", (-1)%Z)]
            "intermediate" 0%Z) with 0%Z.
  change (Py.get [("beginner", 1%Z); ("intermediate", 0%Z); ("advanced", (-1)%Z)]
            "beginner" 0%Z) with 1%Z.
  generalize (Py.get [("beginner", 1%Z); ("intermediate", 0%Z); ("advanced", (-1)%Z)]
                (skill_level user_context) 0%Z) as a.
  generalize (integration_complexity tool) as c.
  intros c a. unfold Py.zmax, Py.zmin.
  repeat split; intros;
    repeat match goal with
           | |- context [(5 <=? ?y)%Z] => destruct (Z.leb_spec 5 y)
           end;
    repeat match goal with
           | |- context [(?x <=? 1)%Z] => destruct (Z.leb_spec x 1)
           end; lia.
Qed.

(** ** The request as a whole *)

Section RequestExtras.

Variable cosine_similarity : list Q -> list Q -> Q.
Variable float_str : Q -> string.
Variable format_2f : Q -> string.
Variable self : RecommendationEngine.

(** X4 (range of the score): when the cosine similarity lies in [-1, 1],
    every returned relevance score lies between -0.1 and 0.95, so it is
    below 1 and the cap at 1.0 is never reached.  (The extremes of the
    exact weighted sum are -0.085 and 0.94; the bounds leave a margin of
    one hundredth and more for the rounding of the float arithmetic.) *)
Theorem relevance_score_range user_context pattern_insights tools tr out tr' :
  (forall u v, -1 <= cosine_similarity u v <= 1) ->
  generate_recommendations cosine_similarity float_str format_2f self
    user_context pattern_insights tools tr = (Returned out, tr') ->
  forall r, In r out ->
    -0.1 <= relevance_score r <= 0.95 /\ relevance_score r < 1.
Proof.
  intros Hcos Hrun r Hr.
  destruct (generate_recommendations_in _ _ _ _ _ _ _ _ _ _ Hrun r Hr)
    as (ue & tool & _ & (te & dom & tr0 & _ & Hdom & _ & Hrel & _)).
  pose proof (Hcos ue te) as [Hlo Hhi].
  pose proof (skill_match_range tool user_context) as [Hk1 Hk2].
  pose proof (domain_relevance_nonneg _ _ _ Hdom) as Hd1.
  pose proof (domain_relevance_le_1 _ _ _ Hdom) as Hd2.
  assert (Hhigh : relevance_score r <= 0.95).
  { rewrite Hrel. unfold _calculate_tool_compatibility.
    eapply Qle_trans; [apply py_min_le_l | lra]. }
  split; [split; [|exact Hhigh] | lra].
  rewrite Hrel. unfold _calculate_tool_compatibility.
  apply PyFacts.min_glb; [lra | discriminate].
Qed.

(** X5 (confidence against relevance): for a returned recommendation the
    confidence is at least the relevance score exactly when the relevance
    score is non-negative, and it is 1 exactly when the relevance score is
    at least 5/6. *)
Theorem confidence_inflation user_context pattern_insights tools tr out tr' :
  generate_recommendations cosine_similarity float_str format_2f self
    user_context pattern_insights tools tr = (Returned out, tr') ->
  forall r, In r out ->
    (relevance_score r <= confidence r <-> 0 <= relevance_score r) /\
    (confidence r == 1 <-> 5 # 6 <= relevance_score r).
Proof.
  intros Hrun r Hr.
  destruct (generate_recommendations_in _ _ _ _ _ _ _ _ _ _ Hrun r Hr)
    as (ue & tool & _ & (te & dom & tr0 & _ & _ & _ & Hrel & Hconf & _)).
  assert (Hle : relevance_score r <= 1)
    by (rewrite Hrel; eapply Qle_trans; [apply PyFacts.min_le_r | discriminate]).
  rewrite Hconf.
  destruct (py_min_cases (relevance_score r * 1.2) 1.0) as [[Hc ->]|[Hc ->]];
    repeat split; intros; lra.
Qed.

(** X6 (embedding calls): a request only extends the trace, and the first
    call it makes is the embedding of the user profile; when every
    embedding is computed it makes N + 1 embedding calls for N candidate
    tools, one for the user and one per tool. *)
Theorem embedding_calls_per_request user_context pattern_insights tools tr :
  (exists ext,
     snd (generate_recommendations cosine_similarity float_str format_2f self
            user_context pattern_insights tools tr)
     = (tr ++ EncodeCall (_create_user_profile float_str user_context pattern_insights)
           :: ext)%list) /\
  (forall user_embedding,
     embedding_model self (_create_user_profile float_str user_context pattern_insights)
       = Some user_embedding ->
     (forall tool, In tool tools -> embedding_model self (tool_profile tool) <> None) ->
     encode_calls (snd (generate_recommendations cosine_similarity float_str format_2f
                          self user_context pattern_insights tools tr))
     = (encode_calls tr + 1 + length tools)%nat).
Proof.
  split.
  - unfold generate_recommendations, try_except, bind, encode.
    destruct (embedding_model self _) as [ue|].
    + destruct (score_tools_extends cosine_similarity format_2f self user_context
                  pattern_insights ue tools []
                  (tr ++ [EncodeCall (_create_user_profile float_str user_context
                                        pattern_insights)])%list) as (ext & Hext).
      exists ext.
      destruct (score_tools _ _ _ _ _ _ _ _ _) as [[recs|e] tr2]; simpl in *;
        rewrite Hext, <- app_assoc; reflexivity.
    + exists []. reflexivity.
  - intros ue Eu Hok.
    destruct (generate_recommendations_trace cosine_similarity float_str format_2f self
                user_context pattern_insights tools ue tr Eu Hok)
      as (scored & ext & Hrun & _ & Hencode & _).
    rewrite Hrun. simpl snd. rewrite encode_calls_app.
    unfold encode_calls in *. simpl. rewrite Hencode. lia.
Qed.

(** X7 (prompts): when every embedding is computed, the text-generation
    prompts of a request are sent in catalog order, one per candidate tool,
    each built from that tool and from the relevance score of its own
    recommendation. *)
Theorem reasoning_prompts_in_catalog_order user_context pattern_insights tools
    user_embedding tr :
  embedding_model self (_create_user_profile float_str user_context pattern_insights)
    = Some user_embedding ->
  (forall tool, In tool tools -> embedding_model self (tool_profile tool) <> None) ->
  exists scored,
    Forall2 (scored_as cosine_similarity format_2f self user_context user_embedding)
      tools scored /\
    text_prompts (snd (generate_recommendations cosine_similarity float_str format_2f
                         self user_context pattern_insights tools tr))
    = (text_prompts tr
       ++ map (fun p => reasoning_prompt format_2f (fst p) user_context
                          (relevance_score (snd p)))
            (combine tools scored))%list.
Proof.
  intros Eu Hok.
  destruct (generate_recommendations_trace cosine_similarity float_str format_2f self
              user_context pattern_insights tools user_embedding tr Eu Hok)
    as (scored & ext & Hrun & Hall & _ & Hprompts).
  exists scored. split; [exact Hall|].
  rewrite Hrun. simpl snd. rewrite text_prompts_app. simpl. now rewrite Hprompts.
Qed.

(** X8 (tool ids): every returned recommendation carries the id of a
    candidate tool; with at most ten candidates and every embedding
    computed, the returned ids are the candidates' ids, each once, in
    ranked order. *)
Theorem returned_tool_ids user_context pattern_insights tools tr :
  (forall out tr',
     generate_recommendations cosine_similarity float_str format_2f self
       user_context pattern_insights tools tr = (Returned out, tr') ->
     forall r, In r out -> exists tool, In tool tools /\ tool_id r = id tool) /\
  (forall user_embedding,
     embedding_model self (_create_user_profile float_str user_context pattern_insights)
       = Some user_embedding ->
     (forall tool, In tool tools -> embedding_model self (tool_profile tool) <> None) ->
     (length tools <= 10)%nat ->
     exists out tr',
       generate_recommendations cosine_similarity float_str format_2f self
         user_context pattern_insights tools tr = (Returned out, tr') /\
       Permutation (map tool_id out) (map id tools)).
Proof.
  split.
  - intros out tr' Hrun r Hr.
    destruct (generate_recommendations_in _ _ _ _ _ _ _ _ _ _ Hrun r Hr)
      as (ue & tool & Ht & (te & dom & tr0 & _ & _ & Hid & _)).
    now exists tool.
  - intros ue Eu Hok Hlen.
    destruct (generate_recommendations_ranks cosine_similarity float_str format_2f self
                user_context pattern_insights tools ue tr Eu Hok)
      as (scored & tr' & Hrun & Hall & _).
    exists (firstn 10 (sort_reverse relevance_score scored)), tr'.
    split; [exact Hrun|].
    rewrite firstn_all2
      by (rewrite sort_reverse_length, <- (Forall2_length Hall); exact Hlen).
    rewrite <- (scored_as_tool_id _ _ _ _ _ _ _ Hall).
    apply Permutation_map, sort_reverse_perm.
Qed.

(** X9 (truncation): when every embedding is computed, the recommendations
    left out by the cut at ten are the max(N - 10, 0) lowest-scored ones:
    returned and dropped recommendations together are the scored tools,
    and no dropped one has a higher score than a returned one. *)
Theorem truncation_keeps_highest user_context pattern_insights tools user_embedding tr :
  embedding_model self (_create_user_profile float_str user_context pattern_insights)
    = Some user_embedding ->
  (forall tool, In tool tools -> embedding_model self (tool_profile tool) <> None) ->
  exists out dropped scored tr',
    generate_recommendations cosine_similarity float_str format_2f self
      user_context pattern_insights tools tr = (Returned out, tr') /\
    Forall2 (scored_as cosine_similarity format_2f self user_context user_embedding)
      tools scored /\
    Permutation (out ++ dropped)%list scored /\
    length dropped = (length tools - 10)%nat /\
    (forall r d, In r out -> In d dropped -> relevance_score d <= relevance_score r).
Proof.
  intros Eu Hok.
  destruct (generate_recommendations_ranks cosine_similarity float_str format_2f self
              user_context pattern_insights tools user_embedding tr Eu Hok)
    as (scored & tr' & Hrun & Hall & _).
  exists (firstn 10 (sort_reverse relevance_score scored)),
         (skipn 10 (sort_reverse relevance_score scored)), scored, tr'.
  split; [exact Hrun|]. split; [exact Hall|]. split; [|split].
  - rewrite firstn_skipn. apply sort_reverse_perm.
  - rewrite length_skipn, sort_reverse_length. now rewrite (Forall2_length Hall).
  - apply (descending_app_le relevance_score).
    rewrite firstn_skipn. apply sort_reverse_descending.
Qed.

End RequestExtras.

(** ** The user profile and the domain scorer *)

Lemma string_app_assoc (a b c : string) : (a ++ b) ++ c = a ++ (b ++ c).
Proof. induction a as [|ch a IH]; simpl; [reflexivity | now rewrite IH]. Qed.

Lemma string_app_empty_r (a : string) : a ++ "" = a.
Proof. induction a as [|ch a IH]; simpl; [reflexivity | now rewrite IH]. Qed.

(** X10 (skill gaps in the profile): an empty list of skill gaps gives the
    same user profile as an absent one, and a non-empty list only appends
    " Skill gaps: " and the comma-joined gaps to it. *)
Theorem user_profile_skill_gaps (float_str : Q -> string) user_context :
  _create_user_profile float_str user_context {| skill_gaps := Some [] |}
  = _create_user_profile float_str user_context {| skill_gaps := None |} /\
  (forall gap gaps,
     _create_user_profile float_str user_context {| skill_gaps := Some (gap :: gaps) |}
     = _create_user_profile float_str user_context {| skill_gaps := None |}
       ++ " Skill gaps: " ++ Py.join ", " (gap :: gaps)).
Proof.
  split; [reflexivity|].
  intros gap gaps. unfold _create_user_profile.
  cbn [skill_gaps List.app Py.join].
  rewrite !string_app_assoc. reflexivity.
Qed.

Lemma filter_length_all {A : Type} (f : A -> bool) (l : list A) :
  length (filter f l) = length l <-> (forall x, In x l -> f x = true).
Proof.
  induction l as [|a l IH]; simpl.
  - split; [intros _ x [] | reflexivity].
  - pose proof (filter_length_le f l) as Hle.
    destruct (f a) eqn:E; simpl.
    + split.
      * intros H x [<-|Hx]; [exact E|]. apply IH; [lia | exact Hx].
      * intros H. f_equal. apply IH. intros x Hx. apply H. now right.
    + split; [lia|]. intros H. specialize (H a (or_introl eq_refl)). congruence.
Qed.

Lemma filter_length_none {A : Type} (f : A -> bool) (l : list A) :
  length (filter f l) = 0%nat <-> (forall x, In x l -> f x = false).
Proof.
  induction l as [|a l IH]; simpl.
  - split; [intros _ x [] | reflexivity].
  - destruct (f a) eqn:E; simpl.
    + split; [discriminate|]. intros H. specialize (H a (or_introl eq_refl)). congruence.
    + rewrite IH. split.
      * intros H x [<-|Hx]; [exact E | now apply H].
      * intros H x Hx. apply H. now right.
Qed.

Lemma Qdiv_eq_iff (a b c : Q) : ~ b == 0 -> (a / b == c <-> a == c * b).
Proof.
  intros Hb. split; intros H.
  - rewrite <- H. field. exact Hb.
  - rewrite H. field. exact Hb.
Qed.

(** The value of the domain scorer when the domain has tokens: the
    matches over the tokens, the cap being idle. *)
Lemma domain_relevance_ratio tool user_context :
  Spec.domain_tokens user_context <> [] ->
  exists score,
    _calculate_domain_relevance tool user_context = Returned score /\
    score ==
      inject_Z (Z.of_nat (length (filter (fun token =>
                                            Py.contains token (Spec.domain_text tool))
                                (Spec.domain_tokens user_context))))
      / inject_Z (Z.of_nat (length (Spec.domain_tokens user_context))).
Proof.
  unfold Spec.domain_tokens, Spec.domain_text, _calculate_domain_relevance.
  destruct (Py.split (Py.lower (work_domain user_context))) as [|token tokens] eqn:E;
    [congruence|]. intros _.
  unfold Py.truediv.
  destruct (Z.eqb_spec (Z.of_nat (length (token :: tokens))) 0) as [Hz|Hz];
    [simpl length in Hz; lia|].
  eexists. split; [reflexivity|].
  rewrite PyFacts.sum_ones_count.
  set (f := fun keyword : string => Py.contains keyword _).
  pose proof (filter_length_le f (token :: tokens)) as Hle.
  destruct (py_min_cases
              (inject_Z (Z.of_nat (length (filter f (token :: tokens))))
               / inject_Z (Z.of_nat (length (token :: tokens)))) 1.0)
    as [[_ ->]|[Hgt _]]; [reflexivity|].
  exfalso. apply (Qlt_not_le _ _ Hgt).
  apply Qle_shift_div_r.
  - change 0 with (inject_Z 0). rewrite <- Zlt_Qlt. lia.
  - setoid_replace 1.0 with 1 by reflexivity. rewrite Qmult_1_l.
    rewrite <- Zle_Qle. lia.
Qed.

(** X11 (extremes of the domain score): when the work domain has at least
    one token, the domain relevance is 1 exactly when every token occurs in
    the tool text, and 0 exactly when none does. *)
Theorem domain_relevance_extremes tool user_context :
  Spec.domain_tokens user_context <> [] ->
  exists score,
    _calculate_domain_relevance tool user_context = Returned score /\
    (score == 1 <->
     forall token, In token (Spec.domain_tokens user_context) ->
       Py.contains token (Spec.domain_text tool) = true) /\
    (score == 0 <->
     forall token, In token (Spec.domain_tokens user_context) ->
       Py.contains token (Spec.domain_text tool) = false).
Proof.
  intros Hne.
  destruct (domain_relevance_ratio tool user_context Hne) as (score & Hret & Hval).
  exists score. split; [exact Hret|].
  assert (Hn : ~ inject_Z (Z.of_nat (length (Spec.domain_tokens user_context))) == 0).
  { change 0 with (inject_Z 0). rewrite inject_Z_injective.
    destruct (Spec.domain_tokens user_context); [congruence | simpl length; lia]. }
  rewrite Hval. split.
  - rewrite (Qdiv_eq_iff _ _ _ Hn), Qmult_1_l, inject_Z_injective, Nat2Z.inj_iff.
    apply filter_length_all.
  - rewrite (Qdiv_eq_iff _ _ _ Hn), Qmult_0_l.
    change 0 with (inject_Z 0). rewrite inject_Z_injective.
    change 0%Z with (Z.of_nat 0). rewrite Nat2Z.inj_iff.
    apply filter_length_none.
Qed.

Lemma lower_char_idem (c : ascii) : Py.lower_char (Py.lower_char c) = Py.lower_char c.
Proof. destruct c as [[] [] [] [] [] [] [] []]; reflexivity. Qed.

Lemma lower_idem (s : string) : Py.lower (Py.lower s) = Py.lower s.
Proof.
  induction s as [|c s IH]; simpl; [reflexivity|].
  now rewrite lower_char_idem, IH.
Qed.

Lemma lower_app (a b : string) : Py.lower (a ++ b) = Py.lower a ++ Py.lower b.
Proof. induction a as [|c a IH]; simpl; [reflexivity | now rewrite IH]. Qed.

Lemma prefix_app (sub s e : string) :
  String.prefix sub s = true -> String.prefix sub (s ++ e) = true.
Proof.
  revert s. induction sub as [|c sub IH]; intros s H;
    [destruct (s ++ e); reflexivity|].
  destruct s as [|d s]; simpl in *; [discriminate|].
  destruct (ascii_dec c d); [now apply IH | discriminate].
Qed.

Lemma contains_app (sub s e : string) :
  Py.contains sub s = true -> Py.contains sub (s ++ e) = true.
Proof.
  induction s as [|d s IH]; intros H.
  - simpl in H. rewrite orb_false_r in H.
    destruct sub; [|discriminate]. destruct e; reflexivity.
  - cbn [Py.contains] in H. apply orb_true_iff in H.
    change (String d s ++ e) with (String d (s ++ e)).
    cbn [Py.contains]. apply orb_true_iff. destruct H as [H|H].
    + left. now apply (prefix_app _ (String d s) e).
    + right. now apply IH.
Qed.

Lemma join_app_extends (sep : string) (l l' : list string) :
  exists e, Py.join sep (l ++ l')%list = Py.join sep l ++ e.
Proof.
  induction l as [|p l IH].
  - exists (Py.join sep l'). reflexivity.
  - destruct IH as (e & He). destruct l as [|q l].
    + destruct l' as [|q' l'].
      * exists "". simpl. now rewrite string_app_empty_r.
      * exists (sep ++ Py.join sep (q' :: l')). reflexivity.
    + exists e. change ((p :: q :: l) ++ l')%list with (p :: ((q :: l) ++ l'))%list.
      change (Py.join sep (p :: ((q :: l) ++ l'))%list)
        with (p ++ sep ++ Py.join sep ((q :: l) ++ l')%list).
      rewrite He.
      change (Py.join sep (p :: q :: l)) with (p ++ sep ++ Py.join sep (q :: l)).
      now rewrite !string_app_assoc.
Qed.

Lemma filter_length_mono {A : Type} (f g : A -> bool) (l : list A) :
  (forall x, f x = true -> g x = true) ->
  (length (filter f l) <= length (filter g l))%nat.
Proof.
  intros H. induction l as [|a l IH]; simpl; [lia|].
  destruct (f a) eqn:E.
  - rewrite (H a E). simpl. lia.
  - destruct (g a); simpl; lia.
Qed.

(** X12 (letter case): writing the work domain in lower case does not
    change the domain relevance of any tool. *)
Theorem domain_relevance_ignores_case tool user_context :
  _calculate_domain_relevance tool
    (with_work_domain user_context (Py.lower (work_domain user_context)))
  = _calculate_domain_relevance tool user_context.
Proof.
  unfold _calculate_domain_relevance. cbn [with_work_domain work_domain].
  now rewrite lower_idem.
Qed.

(** X13 (more use cases): listing further use cases for a tool never
    lowers its domain relevance for any user. *)
Theorem domain_relevance_more_use_cases tool extra user_context :
  exists score score',
    _calculate_domain_relevance tool user_context = Returned score /\
    _calculate_domain_relevance
      (with_use_cases tool (use_cases tool ++ extra)%list) user_context
    = Returned score' /\
    score <= score'.
Proof.
  destruct (Spec.domain_tokens user_context) as [|token tokens] eqn:E.
  - exists 0.5, 0.5. unfold _calculate_domain_relevance.
    unfold Spec.domain_tokens in E. cbn [with_use_cases]. rewrite E.
    repeat split. discriminate.
  - assert (Hne : Spec.domain_tokens user_context <> []) by congruence.
    destruct (domain_relevance_ratio tool user_context Hne) as (s & Hs & Hv).
    destruct (domain_relevance_ratio
                (with_use_cases tool (use_cases tool ++ extra)%list) user_context Hne)
      as (s' & Hs' & Hv').
    exists s, s'. split; [exact Hs|]. split; [exact Hs'|].
    rewrite Hv, Hv'. unfold Qdiv. apply Qmult_le_compat_r.
    + rewrite <- Zle_Qle. apply Nat2Z.inj_le. apply filter_length_mono.
      intros x Hx. unfold Spec.domain_text in *. cbn [with_use_cases category use_cases].
      destruct (join_app_extends " " (use_cases tool) extra) as (e & He).
      rewrite He, <- !string_app_assoc, lower_app.
      apply contains_app. rewrite string_app_assoc. exact Hx.
    + apply Qinv_le_0_compat. change 0 with (inject_Z 0). rewrite <- Zle_Qle. lia.
Qed.

(** ** The privacy guardian *)

Lemma setitem_lookup {V : Type} (d : list (string * V)) (key : string) (value : V)
    (k : string) :
  PyDict.lookup (PyDict.setitem d key value) k
  = if String.eqb key k then Some value else PyDict.lookup d k.
Proof.
  induction d as [|[k0 v0] d IH]; simpl.
  - reflexivity.
  - destruct (String.eqb_spec k0 key) as [->|Hne]; simpl.
    + destruct (String.eqb key k); reflexivity.
    + rewrite IH. destruct (String.eqb_spec k0 k) as [->|_]; [|reflexivity].
      destruct (String.eqb_spec key k) as [->|_]; [congruence | reflexivity].
Qed.

Lemma setitem_fresh {V : Type} (d : list (string * V)) (key : string) (value : V) :
  ~ In key (map fst d) -> PyDict.setitem d key value = (d ++ [(key, value)])%list.
Proof.
  induction d as [|[k0 v0] d IH]; simpl; intros H; [reflexivity|].
  destruct (String.eqb_spec k0 key) as [->|_]; [exfalso; apply H; now left|].
  rewrite IH; [reflexivity|]. intros Hin. apply H. now right.
Qed.

Section DictFilter.

Variable keep : string -> bool.

(** The loop that copies the items whose key passes [keep]. *)
Let copy_kept (kept : list (string * string)) (item : string * string) :=
  let '(k, v) := item in if keep k then PyDict.setitem kept k v else kept.

(** A key that does not pass is never written. *)
Lemma copy_kept_skips (d kept : list (string * string)) (k : string) :
  keep k = false ->
  PyDict.lookup (fold_left copy_kept d kept) k = PyDict.lookup kept k.
Proof.
  intros Hk. revert kept. induction d as [|[k0 v0] d IH]; intros kept; simpl.
  - reflexivity.
  - rewrite IH. destruct (keep k0) eqn:E0; [|reflexivity].
    rewrite setitem_lookup.
    destruct (String.eqb_spec k0 k) as [->|_]; [congruence | reflexivity].
Qed.

(** On a well-formed dict the loop is a filter of the items. *)
Lemma copy_kept_filter (d kept : list (string * string)) :
  NoDup (map fst d) ->
  (forall k, In k (map fst d) -> ~ In k (map fst kept)) ->
  fold_left copy_kept d kept
  = (kept ++ filter (fun item => keep (fst item)) d)%list.
Proof.
  revert kept. induction d as [|[k0 v0] d IH]; intros kept Hnd Hfresh; simpl.
  - now rewrite app_nil_r.
  - inversion Hnd as [|? ? Hk0 Hnd']; subst.
    destruct (keep k0) eqn:E0.
    + rewrite setitem_fresh by (apply Hfresh; now left).
      rewrite IH; [rewrite <- app_assoc; reflexivity | exact Hnd' |].
      intros k Hk Hin. rewrite map_app, in_app_iff in Hin.
      destruct Hin as [Hin|[<-|[]]].
      * apply (Hfresh k); [now right | exact Hin].
      * exact (Hk0 Hk).
    + apply IH; [exact Hnd'|]. intros k Hk. apply Hfresh. now right.
Qed.

Lemma lookup_filter (d : list (string * string)) (k : string) :
  PyDict.lookup (filter (fun item => keep (fst item)) d) k
  = if keep k then PyDict.lookup d k else None.
Proof.
  induction d as [|[k0 v0] d IH]; simpl.
  - now destruct (keep k).
  - destruct (keep k0) eqn:E0; simpl.
    + destruct (String.eqb_spec k0 k) as [->|_]; [now rewrite E0 | exact IH].
    + destruct (String.eqb_spec k0 k) as [->|_]; [now rewrite IH, E0 | exact IH].
Qed.

End DictFilter.

Lemma sanitize_goals_from (goals kept : list string) :
  fold_left
    (fun sanitized_goals goal =>
       if negb (existsb (fun keyword => Py.contains keyword (Py.lower goal))
                  ["salary"; "personal"; "confidential"; "private"])
       then (sanitized_goals ++ [goal])%list
       else sanitized_goals)
    goals kept
  = (kept ++ filter harmless_goal goals)%list.
Proof.
  revert kept. induction goals as [|goal goals IH]; intros kept; simpl.
  - now rewrite app_nil_r.
  - rewrite IH. unfold harmless_goal at 2.
    destruct (negb _); [now rewrite <- app_assoc | reflexivity].
Qed.

Lemma sanitize_goals_filter (goals : list string) :
  _sanitize_goals goals = filter harmless_goal goals.
Proof. unfold _sanitize_goals. now rewrite sanitize_goals_from. Qed.

Lemma slice_to_length (n : nat) (s : string) :
  String.length (PyDict.slice_to n s) = Nat.min n (String.length s).
Proof.
  revert s. induction n as [|n IH]; intros [|c s]; simpl; try reflexivity.
  now rewrite IH.
Qed.

Section PrivacyFacts.

Variable sha256_hexdigest : string -> string.

(** X14 (nothing sensitive is left): in the sanitized context the activity
    patterns have none of the keys personal_info, sensitive_data and
    private_urls, every preference key is one of the four safe keys, no
    goal mentions a sensitive keyword in any letter case, and the user id
    has at most 16 characters. *)
Theorem sanitized_context_is_clean user_context :
  let sanitized := sanitize_user_data sha256_hexdigest user_context in
  (forall key,
     PyDict.in_list key ["personal_info"; "sensitive_data"; "private_urls"] = true ->
     PyDict.lookup (activity_patterns sanitized) key = None) /\
  (forall key value,
     PyDict.lookup (preferences sanitized) key = Some value ->
     PyDict.in_list key
       ["theme"; "notifications"; "learning_style"; "difficulty_preference"] = true) /\
  (forall goal, In goal (goals sanitized) -> harmless_goal goal = true) /\
  (String.length (user_id sanitized) <= 16)%nat.
Proof.
  cbn zeta. cbn [sanitize_user_data activity_patterns preferences goals user_id].
  split; [|split; [|split]].
  - intros key Hkey. unfold _sanitize_activity_patterns.
    rewrite (copy_kept_skips
               (fun k => negb (PyDict.in_list k
                                 ["personal_info"; "sensitive_data"; "private_urls"])));
      [reflexivity | now rewrite Hkey].
  - intros key value Hlook. unfold _sanitize_preferences in Hlook.
    destruct (PyDict.in_list key _) eqn:E; [reflexivity|].
    rewrite (copy_kept_skips
               (fun k => PyDict.in_list k
                           ["theme"; "notifications"; "learning_style";
                            "difficulty_preference"])) in Hlook by exact E.
    discriminate Hlook.
  - intros goal Hin. rewrite sanitize_goals_filter in Hin.
    now apply filter_In in Hin.
  - unfold _anonymize_user_id. rewrite slice_to_length. apply Nat.le_min_l.
Qed.

(** X15 (nothing else is lost): for well-formed dicts, sanitizing keeps
    every activity pattern whose key is not one of the three removed keys
    and every preference under a safe key, with their values and in their
    order; it keeps every goal without a sensitive keyword, in order; and
    it leaves skill level, work domain, tools used and productivity score
    as they are. *)
Theorem sanitized_context_keeps_the_rest user_context :
  PyDict.well_formed (activity_patterns user_context) ->
  PyDict.well_formed (preferences user_context) ->
  let sanitized := sanitize_user_data sha256_hexdigest user_context in
  activity_patterns sanitized
  = filter (fun item =>
              negb (PyDict.in_list (fst item)
                      ["personal_info"; "sensitive_data"; "private_urls"]))
      (activity_patterns user_context) /\
  (forall key,
     PyDict.in_list key ["personal_info"; "sensitive_data"; "private_urls"] = false ->
     PyDict.lookup (activity_patterns sanitized) key
     = PyDict.lookup (activity_patterns user_context) key) /\
  preferences sanitized
  = filter (fun item =>
              PyDict.in_list (fst item)
                ["theme"; "notifications"; "learning_style"; "difficulty_preference"])
      (preferences user_context) /\
  (forall key,
     PyDict.in_list key
       ["theme"; "notifications"; "learning_style"; "difficulty_preference"] = true ->
     PyDict.lookup (preferences sanitized) key
     = PyDict.lookup (preferences user_context) key) /\
  goals sanitized = filter harmless_goal (goals user_context) /\
  skill_level sanitized = skill_level user_context /\
  work_domain sanitized = work_domain user_context /\
  tools_used sanitized = tools_used user_context /\
  productivity_score sanitized = productivity_score user_context.
Proof.
  intros Ha Hp. cbn zeta.
  cbn [sanitize_user_data activity_patterns preferences goals skill_level
       work_domain tools_used productivity_score].
  assert (Hact : _sanitize_activity_patterns (activity_patterns user_context)
                 = filter (fun item =>
                             negb (PyDict.in_list (fst item)
                                     ["personal_info"; "sensitive_data"; "private_urls"]))
                     (activity_patterns user_context)).
  { unfold _sanitize_activity_patterns.
    apply (copy_kept_filter
             (fun k => negb (PyDict.in_list k
                               ["personal_info"; "sensitive_data"; "private_urls"]))
             _ [] Ha).
    intros k _ []. }
  assert (Hpref : _sanitize_preferences (preferences user_context)
                  = filter (fun item =>
                              PyDict.in_list (fst item)
                                ["theme"; "notifications"; "learning_style";
                                 "difficulty_preference"])
                      (preferences user_context)).
  { unfold _sanitize_preferences.
    apply (copy_kept_filter
             (fun k => PyDict.in_list k
                         ["theme"; "notifications"; "learning_style";
                          "difficulty_preference"])
             _ [] Hp).
    intros k _ []. }
  split; [exact Hact|]. split.
  { intros key Hkey. rewrite Hact.
    rewrite (lookup_filter
               (fun k => negb (PyDict.in_list k
                                 ["personal_info"; "sensitive_data"; "private_urls"]))).
    now rewrite Hkey. }
  split; [exact Hpref|]. split.
  { intros key Hkey. rewrite Hpref.
    rewrite (lookup_filter
               (fun k => PyDict.in_list k
                           ["theme"; "notifications"; "learning_style";
                            "difficulty_preference"])).
    now rewrite Hkey. }
  split; [apply sanitize_goals_filter|]. repeat split.
Qed.

End PrivacyFacts.

(** ** What the ranking reads of the user context *)

Section RankingReads.

Variable cosine_similarity : list Q -> list Q -> Q.
Variable float_str : Q -> string.
Variable format_2f : Q -> string.
Variable self : RecommendationEngine.

(** Two contexts with the same skill level, goals, work domain, tools and
    productivity score. *)
Variables (id1 id2 : string) (patterns1 patterns2 prefs1 prefs2 : list (string * string)).
Variables (level domain : string) (user_goals tools_in_use : list string) (score : Q).

Let context1 : UserContext :=
  {| user_id := id1; activity_patterns := patterns1; skill_level := level;
     preferences := prefs1; goals := user_goals; work_domain := domain;
     tools_used := tools_in_use; productivity_score := score |}.

Let context2 : UserContext :=
  {| user_id := id2; activity_patterns := patterns2; skill_level := level;
     preferences := prefs2; goals := user_goals; work_domain := domain;
     tools_used := tools_in_use; productivity_score := score |}.

Lemma score_tools_reads pattern_insights user_embedding tools :
  forall recommendations tr,
    score_tools cosine_similarity format_2f self context1 pattern_insights
      user_embedding tools recommendations tr
    = score_tools cosine_similarity format_2f self context2 pattern_insights
        user_embedding tools recommendations tr.
Proof.
  induction tools as [|tool rest IH]; intros recommendations tr; [reflexivity|].
  simpl score_tools. unfold bind.
  change (_calculate_relevance_score cosine_similarity self tool context1
            pattern_insights user_embedding tr)
    with (_calculate_relevance_score cosine_similarity self tool context2
            pattern_insights user_embedding tr).
  destruct (_calculate_relevance_score cosine_similarity self tool context2
              pattern_insights user_embedding tr) as [[relevance|e] tr1];
    [|reflexivity].
  change (_generate_reasoning format_2f self tool context1 relevance tr1)
    with (_generate_reasoning format_2f self tool context2 relevance tr1).
  destruct (_generate_reasoning format_2f self tool context2 relevance tr1)
    as [[text|e] tr2]; [|reflexivity].
  change (_predict_impact tool context1 tr2) with (_predict_impact tool context2 tr2).
  destruct (_predict_impact tool context2 tr2) as [[impact|e] tr3]; [|reflexivity].
  apply IH.
Qed.

Lemma generate_recommendations_reads pattern_insights tools tr :
  generate_recommendations cosine_similarity float_str format_2f self
    context1 pattern_insights tools tr
  = generate_recommendations cosine_similarity float_str format_2f self
      context2 pattern_insights tools tr.
Proof.
  unfold generate_recommendations, try_except, bind.
  change (_create_user_profile float_str context1 pattern_insights)
    with (_create_user_profile float_str context2 pattern_insights).
  destruct (encode self (_create_user_profile float_str context2 pattern_insights) tr)
    as [[ue|e] tr1]; [|reflexivity].
  now rewrite score_tools_reads.
Qed.

End RankingReads.

Section RankingFrame.

Variable cosine_similarity : list Q -> list Q -> Q.
Variable float_str : Q -> string.
Variable format_2f : Q -> string.
Variable self : RecommendationEngine.

(** X16 (what the ranking reads): a request reads the user context only
    through its skill level, goals, work domain, tools used and
    productivity score: two contexts that agree on these five fields give
    the same recommendations and the same collaborator calls, whatever
    their user ids, activity patterns and preferences. *)
Theorem ranking_reads_five_fields context1 context2 pattern_insights tools tr :
  skill_level context1 = skill_level context2 ->
  goals context1 = goals context2 ->
  work_domain context1 = work_domain context2 ->
  tools_used context1 = tools_used context2 ->
  productivity_score context1 = productivity_score context2 ->
  generate_recommendations cosine_similarity float_str format_2f self
    context1 pattern_insights tools tr
  = generate_recommendations cosine_similarity float_str format_2f self
      context2 pattern_insights tools tr.
Proof.
  destruct context1, context2. simpl. intros -> -> -> -> ->.
  apply generate_recommendations_reads.
Qed.

(** X17 (ranking after sanitizing): ranking the sanitized context is
    ranking the original context with its sensitive goals removed; when no
    goal mentions a sensitive keyword, sanitizing changes neither the
    recommendations nor the collaborator calls. *)
Theorem ranking_after_sanitizing (sha256_hexdigest : string -> string)
    user_context pattern_insights tools tr :
  generate_recommendations cosine_similarity float_str format_2f self
    (sanitize_user_data sha256_hexdigest user_context) pattern_insights tools tr
  = generate_recommendations cosine_similarity float_str format_2f self
      (with_goals user_context (filter harmless_goal (goals user_context)))
      pattern_insights tools tr /\
  (forallb harmless_goal (goals user_context) = true ->
   generate_recommendations cosine_similarity float_str format_2f self
     (sanitize_user_data sha256_hexdigest user_context) pattern_insights tools tr
   = generate_recommendations cosine_similarity float_str format_2f self
       user_context pattern_insights tools tr).
Proof.
  assert (Hfilter : forall l, forallb harmless_goal l = true ->
                              filter harmless_goal l = l).
  { induction l as [|g l IH]; simpl; [reflexivity|].
    intros H. apply andb_true_iff in H. destruct H as [Hg Hl].
    now rewrite Hg, IH. }
  split.
  - destruct user_context. unfold sanitize_user_data, with_goals. simpl.
    rewrite sanitize_goals_filter. apply generate_recommendations_reads.
  - intros Hall. destruct user_context. unfold sanitize_user_data. simpl in *.
    rewrite sanitize_goals_filter, (Hfilter _ Hall).
    apply generate_recommendations_reads.
Qed.

End RankingFrame.

(** ** Tool discovery, implementation guides and learning paths *)

Lemma learning_time_range tool user_context :
  (2 <= _estimate_learning_time tool user_context <= 16)%Z.
Proof.
  unfold _estimate_learning_time, Py.get.
  repeat match goal with
         | |- context [if ?b then _ else _] => destruct b
         end; split; discriminate.
Qed.

Lemma generate_guides_from_spec client user_context recommendations :
  forall guides sent,
  exists new_guides,
    generate_guides_from client user_context recommendations guides sent
    = ((guides ++ new_guides)%list,
       (sent ++ map (guide_prompt user_context) recommendations)%list) /\
    Forall2 (guide_for client user_context) recommendations new_guides /\
    map tool_id_of_guide new_guides = map tool_id recommendations.
Proof.
  induction recommendations as [|r rest IH]; intros guides sent.
  - exists []. simpl. rewrite !app_nil_r. repeat split. constructor.
  - simpl generate_guides_from. unfold _create_implementation_guide.
    destruct (client sent (guide_prompt user_context r)) as [content|e] eqn:E.
    + destruct (IH (guides ++ [Guide (tool_id r)
                                 ("Implementation Guide for " ++ tool_id r) content
                                 (implementation_complexity r)
                                 (PyDict.str_int (learning_time_hours r / 4)
                                  ++ " hours")])%list
                  (sent ++ [guide_prompt user_context r])%list)
        as (new_guides & Hrun & Hall & Hids).
      eexists (_ :: new_guides). rewrite Hrun, <- !app_assoc.
      split; [reflexivity|]. split.
      * constructor; [|exact Hall]. exists sent. now rewrite E.
      * simpl. now rewrite Hids.
    + destruct (IH (guides ++ [GuideError (tool_id r) (str_error e)])%list
                  (sent ++ [guide_prompt user_context r])%list)
        as (new_guides & Hrun & Hall & Hids).
      eexists (_ :: new_guides). rewrite Hrun, <- !app_assoc.
      split; [reflexivity|]. split.
      * constructor; [|exact Hall]. exists sent. now rewrite E.
      * simpl. now rewrite Hids.
Qed.

(** X18 (implementation guides): [generate_guides] answers one guide per
    recommendation, in order and with the recommendation's tool id,
    whether the client answers or raises; it sends one prompt per
    recommendation, in order, and nothing else. *)
Theorem guides_one_per_recommendation client user_context recommendations sent :
  exists guides,
    generate_guides client user_context recommendations sent
    = (guides, (sent ++ map (guide_prompt user_context) recommendations)%list) /\
    Forall2 (guide_for client user_context) recommendations guides /\
    map tool_id_of_guide guides = map tool_id recommendations /\
    length guides = length recommendations.
Proof.
  destruct (generate_guides_from_spec client user_context recommendations [] sent)
    as (guides & Hrun & Hall & Hids).
  exists guides. repeat split; try assumption.
  now rewrite <- (length_map tool_id_of_guide), Hids, length_map.
Qed.

Section AroundTheRanking.

Variable cosine_similarity : list Q -> list Q -> Q.
Variable float_str : Q -> string.
Variable format_2f : Q -> string.
Variable self : RecommendationEngine.

(** X19 (setup time of a ranked tool): for a recommendation returned by
    the ranking, a guide whose client call succeeds carries the
    recommendation's tool id and complexity, and its estimated setup time
    is the learning time divided by four and rounded down, one of
    "0 hours", "1 hours", "2 hours", "3 hours" and "4 hours". *)
Theorem setup_time_of_ranked_tool user_context pattern_insights tools tr out tr'
    (client : llm_client) guide_context sent content r :
  generate_recommendations cosine_similarity float_str format_2f self
    user_context pattern_insights tools tr = (Returned out, tr') ->
  In r out ->
  client sent (guide_prompt guide_context r) = inl content ->
  exists setup_time,
    fst (_create_implementation_guide client guide_context r sent)
    = Guide (tool_id r) ("Implementation Guide for " ++ tool_id r) content
        (implementation_complexity r) setup_time /\
    setup_time = PyDict.str_int (learning_time_hours r / 4) ++ " hours" /\
    In setup_time ["0 hours"; "1 hours"; "2 hours"; "3 hours"; "4 hours"] /\
    (1 <= implementation_complexity r <= 5)%Z.
Proof.
  intros Hrun Hr Hclient.
  destruct (generate_recommendations_in _ _ _ _ _ _ _ _ _ _ Hrun r Hr)
    as (ue & tool & _ & (te & dom & tr0 & _ & _ & _ & _ & _ & _ & Hcx & _ & Hlt)).
  eexists. unfold _create_implementation_guide. rewrite Hclient.
  split; [reflexivity|]. split; [reflexivity|]. split.
  - pose proof (learning_time_range tool user_context) as Hrange.
    rewrite <- Hlt in Hrange.
    assert (Hq : (0 <= learning_time_hours r / 4 <= 4)%Z).
    { split; [apply Z.div_pos; lia | apply Z.div_le_upper_bound; lia]. }
    assert (Hcases : (learning_time_hours r / 4 = 0 \/ learning_time_hours r / 4 = 1
                      \/ learning_time_hours r / 4 = 2 \/ learning_time_hours r / 4 = 3
                      \/ learning_time_hours r / 4 = 4)%Z) by lia.
    destruct Hcases as [->|[->|[->|[->| ->]]]]; simpl; auto 6.
  - rewrite Hcx. apply PyFacts.clamp_bounds.
Qed.

(** X21 (discovery feeds the ranking): tool discovery answers the same
    two curated tools for every user, never more than twenty; ranking them
    returns exactly the two ids gpt4 and claude3, in ranked order, after
    two text-generation calls, when the three embeddings are computed. *)
Theorem discovery_feeds_two_tools user_context pattern_insights user_embedding tr :
  (forall other, discover_relevant_tools other = discover_relevant_tools user_context) /\
  (length (discover_relevant_tools user_context) <= 20)%nat /\
  (embedding_model self (_create_user_profile float_str user_context pattern_insights)
     = Some user_embedding ->
   embedding_model self (tool_profile Sample.gpt4) <> None ->
   embedding_model self (tool_profile Sample.claude3) <> None ->
   exists out tr',
     generate_recommendations cosine_similarity float_str format_2f self
       user_context pattern_insights (discover_relevant_tools user_context) tr
     = (Returned out, tr') /\
     Permutation (map tool_id out) ["gpt4"; "claude3"] /\
     text_calls tr' = (text_calls tr + 2)%nat).
Proof.
  split; [reflexivity|]. split; [simpl; lia|].
  intros Eu Hg Hc.
  assert (Hok : forall tool, In tool (discover_relevant_tools user_context) ->
                  embedding_model self (tool_profile tool) <> None).
  { intros tool [<-|[<-|[]]]; assumption. }
  destruct (generate_recommendations_ranks cosine_similarity float_str format_2f self
              user_context pattern_insights (discover_relevant_tools user_context)
              user_embedding tr Eu Hok)
    as (scored & tr' & Hrun & Hall & Hcalls).
  exists (firstn 10 (sort_reverse relevance_score scored)), tr'.
  split; [exact Hrun|]. split; [|exact Hcalls].
  pose proof (Forall2_length Hall) as Hlen.
  rewrite firstn_all2 by (rewrite sort_reverse_length, <- Hlen; simpl; lia).
  change ["gpt4"; "claude3"] with (map id (discover_relevant_tools user_context)).
  rewrite <- (scored_as_tool_id _ _ _ _ _ _ _ Hall).
  apply Permutation_map, sort_reverse_perm.
Qed.

End AroundTheRanking.

Section LearningPathFacts.

Variable json : Type.
Variable json_loads : string -> json + agent_error.

Lemma create_learning_paths_from_spec client user_context recommended_tools :
  forall learning_paths sent,
  exists new_paths,
    create_learning_paths_from json json_loads client user_context recommended_tools
      learning_paths sent
    = ((learning_paths ++ new_paths)%list,
       (sent ++ map (learning_path_prompt user_context) recommended_tools)%list) /\
    Forall2 (path_for json json_loads client user_context) recommended_tools new_paths.
Proof.
  induction recommended_tools as [|tool rest IH]; intros learning_paths sent.
  - exists []. simpl. rewrite !app_nil_r. split; [reflexivity | constructor].
  - simpl create_learning_paths_from. unfold _create_single_learning_path.
    destruct (client sent (learning_path_prompt user_context tool)) as [text|e] eqn:E;
      [destruct (json_loads text) as [path_data|e] eqn:J|];
      match goal with
      | |- exists _, create_learning_paths_from _ _ _ _ _ ?acc ?sent2 = _ /\ _ =>
          destruct (IH acc sent2) as (new_paths & Hrun & Hall)
      end;
      eexists (_ :: new_paths); rewrite Hrun, <- !app_assoc;
      (split; [reflexivity|]);
      (constructor; [|exact Hall]); exists sent; rewrite E; try rewrite J; reflexivity.
Qed.

(** X20 (learning paths): [create_learning_paths] answers one path per
    tool id, in order, after one prompt per tool id; a path is the decoded
    answer of the client, or, when the call or the decoding fails, the
    error dict with that tool id and the title "Learning Path for
    {tool_id}"; so with a client that always fails every path is such an
    error dict. *)
Theorem learning_paths_one_per_tool client user_context recommended_tools sent :
  exists paths,
    create_learning_paths json json_loads client user_context recommended_tools sent
    = (paths,
       (sent ++ map (learning_path_prompt user_context) recommended_tools)%list) /\
    Forall2 (path_for json json_loads client user_context) recommended_tools paths /\
    length paths = length recommended_tools /\
    ((forall prompts prompt, exists e, client prompts prompt = inr e) ->
     Forall2 (fun tool_id path =>
                exists message,
                  path = PathError tool_id ("Learning Path for " ++ tool_id) message)
       recommended_tools paths).
Proof.
  destruct (create_learning_paths_from_spec client user_context recommended_tools [] sent)
    as (paths & Hrun & Hall).
  exists paths. split; [exact Hrun|]. split; [exact Hall|].
  split; [symmetry; apply (Forall2_length Hall)|].
  intros Hfail. eapply Forall2_impl; [|exact Hall].
  intros tool path (sent0 & Hpath).
  destruct (Hfail sent0 (learning_path_prompt user_context tool)) as (e & He).
  rewrite He in Hpath. now exists (str_error e).
Qed.

End LearningPathFacts.

(** ** The further properties on concrete inputs *)

Lemma cosine_1d_range (u v : list Q) : -1 <= Sample.cosine_1d u v <= 1.
Proof.
  unfold Sample.cosine_1d.
  destruct u as [|a [|? ?]]; try (split; discriminate).
  destruct v as [|b [|? ?]]; try (split; discriminate).
  destruct (Py.lt 0 (a * b)); [split; discriminate|].
  destruct (Py.lt (a * b) 0); split; discriminate.
Qed.

Lemma sample_embeddings (tools : list AITool) :
  forall tool, In tool tools ->
    embedding_model Sample.engine (tool_profile tool) <> None.
Proof. intros tool _. discriminate. Qed.

Lemma predict_impact_tiers_witness :
  exists impact,
    _predict_impact Sample.gpt4 Sample.analyst [] = (Returned impact, []) /\
    impact = "High".
Proof.
  destruct (predict_impact_tiers Sample.gpt4 Sample.analyst [])
    as (impact & Hrun & _ & Hhigh & _).
  exists impact. split; [exact Hrun|].
  apply Hhigh. split; reflexivity.
Defined.

Lemma learning_time_bounds_monotone_witness :
  (_estimate_learning_time Sample.gpt4 Sample.analyst
   <= _estimate_learning_time Sample.kubeflow Sample.novice)%Z.
Proof.
  apply (proj2 (learning_time_bounds_monotone Sample.gpt4 Sample.analyst)
           Sample.kubeflow Sample.novice 1 3 2 1)%Z;
    first [reflexivity | discriminate].
Defined.

Lemma implementation_complexity_order_witness :
  _calculate_implementation_complexity Sample.claude3
    (with_skill_level Sample.analyst "intermediate") = 3%Z.
Proof.
  destruct (implementation_complexity_order Sample.claude3 Sample.analyst)
    as (_ & _ & _ & _ & Hsame).
  apply Hsame. split; discriminate.
Defined.

Lemma relevance_score_range_witness :
  exists out tr' r,
    Sample.run Sample.engine_opposed Sample.novice Sample.insights Sample.catalog
    = (Returned out, tr') /\
    In r out /\
    -0.1 <= relevance_score r <= 0.95 /\ relevance_score r < 1.
Proof.
  do 3 eexists. split; [vm_compute; reflexivity|].
  split; [left; reflexivity|].
  eapply (relevance_score_range Sample.cosine_1d Sample.float_str Sample.format_2f
            Sample.engine_opposed Sample.novice Sample.insights Sample.catalog []).
  - exact cosine_1d_range.
  - vm_compute. reflexivity.
  - left. reflexivity.
Defined.

Lemma confidence_inflation_witness :
  exists out tr' r,
    Sample.run Sample.engine_opposed Sample.novice Sample.insights [Sample.kubeflow]
    = (Returned out, tr') /\
    In r out /\
    (relevance_score r <= confidence r <-> 0 <= relevance_score r) /\
    (confidence r == 1 <-> 5 # 6 <= relevance_score r).
Proof.
  do 3 eexists. split; [vm_compute; reflexivity|].
  split; [left; reflexivity|].
  eapply (confidence_inflation Sample.cosine_1d Sample.float_str Sample.format_2f
            Sample.engine_opposed Sample.novice Sample.insights [Sample.kubeflow] []).
  - vm_compute. reflexivity.
  - left. reflexivity.
Defined.

Lemma embedding_calls_per_request_witness :
  encode_calls (snd (Sample.run Sample.engine Sample.analyst Sample.insights
                       Sample.catalog))
  = (encode_calls [] + 1 + length Sample.catalog)%nat.
Proof.
  apply (proj2 (embedding_calls_per_request Sample.cosine_1d Sample.float_str
                  Sample.format_2f Sample.engine Sample.analyst Sample.insights
                  Sample.catalog []) [1] eq_refl).
  apply sample_embeddings.
Defined.

Lemma reasoning_prompts_in_catalog_order_witness :
  exists scored,
    Forall2 (scored_as Sample.cosine_1d Sample.format_2f Sample.engine Sample.analyst [1])
      Sample.catalog scored /\
    text_prompts (snd (Sample.run Sample.engine Sample.analyst Sample.insights
                         Sample.catalog))
    = (text_prompts []
       ++ map (fun p => reasoning_prompt Sample.format_2f (fst p) Sample.analyst
                          (relevance_score (snd p)))
            (combine Sample.catalog scored))%list.
Proof.
  apply (reasoning_prompts_in_catalog_order Sample.cosine_1d Sample.float_str
           Sample.format_2f Sample.engine Sample.analyst Sample.insights
           Sample.catalog [1] [] eq_refl).
  apply sample_embeddings.
Defined.

Lemma returned_tool_ids_witness :
  exists out tr',
    Sample.run Sample.engine Sample.analyst Sample.insights Sample.catalog
    = (Returned out, tr') /\
    Permutation (map tool_id out) (map id Sample.catalog).
Proof.
  apply (proj2 (returned_tool_ids Sample.cosine_1d Sample.float_str Sample.format_2f
                  Sample.engine Sample.analyst Sample.insights Sample.catalog [])
           [1] eq_refl).
  - apply sample_embeddings.
  - simpl. lia.
Defined.

Lemma truncation_keeps_highest_witness :
  exists out dropped scored tr',
    Sample.run Sample.engine Sample.analyst Sample.insights ExtraSample.catalog12
    = (Returned out, tr') /\
    Forall2 (scored_as Sample.cosine_1d Sample.format_2f Sample.engine Sample.analyst [1])
      ExtraSample.catalog12 scored /\
    Permutation (out ++ dropped)%list scored /\
    length dropped = (length ExtraSample.catalog12 - 10)%nat /\
    (forall r d, In r out -> In d dropped -> relevance_score d <= relevance_score r).
Proof.
  apply (truncation_keeps_highest Sample.cosine_1d Sample.float_str Sample.format_2f
           Sample.engine Sample.analyst Sample.insights ExtraSample.catalog12 [1] []
           eq_refl).
  apply sample_embeddings.
Defined.

(** Twelve candidates: ten are returned, the two dropped are the two
    copies of the lowest-scored tool that come last in the catalog. *)
Example truncation_of_twelve :
  exists out tr',
    Sample.run Sample.engine Sample.analyst Sample.insights ExtraSample.catalog12
    = (Returned out, tr') /\
    length out = 10%nat /\
    map tool_id out
    = ["claude3-a"; "claude3-b"; "claude3-c"; "gpt4-a"; "gpt4-b"; "gpt4-c";
       "kubeflow-a"; "kubeflow-b"; "kubeflow-c"; "whisper-a"].
Proof. do 2 eexists. split; [vm_compute; reflexivity|]. split; reflexivity. Qed.

Lemma domain_relevance_extremes_witness :
  Spec.domain_tokens Sample.cloud_engineer <> [] /\
  exists score,
    _calculate_domain_relevance Sample.security_tool Sample.cloud_engineer
    = Returned score /\ score == 1.
Proof.
  assert (Hne : Spec.domain_tokens Sample.cloud_engineer <> []) by discriminate.
  split; [exact Hne|].
  destruct (domain_relevance_extremes Sample.security_tool Sample.cloud_engineer Hne)
    as (score & Hret & Hone & _).
  exists score. split; [exact Hret|].
  apply Hone. intros token [<-|[<-|[]]]; reflexivity.
Defined.

(** The goals that the filter removes mention a keyword in any letter
    case, also inside a longer word. *)
Example sanitize_goals_examples :
  _sanitize_goals ["automate reports"; "Negotiate a higher SALARY"; "learn SQL"]
  = ["automate reports"; "learn SQL"] /\
  _sanitize_goals ["write in an impersonal tone"] = [].
Proof. split; reflexivity. Qed.

Lemma sanitized_context_keeps_the_rest_witness :
  PyDict.well_formed (activity_patterns ExtraSample.raw_analyst) /\
  PyDict.well_formed (preferences ExtraSample.raw_analyst) /\
  activity_patterns (sanitize_user_data ExtraSample.digest ExtraSample.raw_analyst)
  = [("focus_hours", "4"); ("top_app", "spreadsheet")] /\
  preferences (sanitize_user_data ExtraSample.digest ExtraSample.raw_analyst)
  = [("theme", "dark"); ("learning_style", "visual")] /\
  goals (sanitize_user_data ExtraSample.digest ExtraSample.raw_analyst)
  = ["automate reports"; "learn SQL"].
Proof.
  assert (Ha : PyDict.well_formed (activity_patterns ExtraSample.raw_analyst)).
  { unfold PyDict.well_formed. simpl. repeat constructor; simpl; intuition discriminate. }
  assert (Hp : PyDict.well_formed (preferences ExtraSample.raw_analyst)).
  { unfold PyDict.well_formed. simpl. repeat constructor; simpl; intuition discriminate. }
  split; [exact Ha|]. split; [exact Hp|].
  destruct (sanitized_context_keeps_the_rest ExtraSample.digest ExtraSample.raw_analyst
              Ha Hp) as (Hact & _ & Hpref & _ & Hgoals & _).
  rewrite Hact, Hpref, Hgoals. repeat split.
Defined.

Lemma ranking_reads_five_fields_witness :
  Sample.run Sample.engine ExtraSample.raw_analyst Sample.insights Sample.catalog
  = Sample.run Sample.engine
      (with_goals Sample.analyst (goals ExtraSample.raw_analyst))
      Sample.insights Sample.catalog.
Proof.
  apply (ranking_reads_five_fields Sample.cosine_1d Sample.float_str Sample.format_2f
           Sample.engine ExtraSample.raw_analyst
           (with_goals Sample.analyst (goals ExtraSample.raw_analyst))
           Sample.insights Sample.catalog []); reflexivity.
Defined.

Lemma ranking_after_sanitizing_witness :
  forallb harmless_goal (goals Sample.analyst) = true /\
  Sample.run Sample.engine (sanitize_user_data ExtraSample.digest Sample.analyst)
    Sample.insights Sample.catalog
  = Sample.run Sample.engine Sample.analyst Sample.insights Sample.catalog.
Proof.
  split; [reflexivity|].
  apply (proj2 (ranking_after_sanitizing Sample.cosine_1d Sample.float_str
                  Sample.format_2f Sample.engine ExtraSample.digest Sample.analyst
                  Sample.insights Sample.catalog [])).
  reflexivity.
Defined.

Lemma setup_time_of_ranked_tool_witness :
  exists out tr' r setup_time,
    Sample.run Sample.engine Sample.analyst Sample.insights Sample.catalog
    = (Returned out, tr') /\
    In r out /\
    fst (_create_implementation_guide DownstreamSample.flaky Sample.analyst r [])
    = Guide (tool_id r) ("Implementation Guide for " ++ tool_id r)
        "Install the SDK, then set the API key."
        (implementation_complexity r) setup_time /\
    setup_time = PyDict.str_int (learning_time_hours r / 4) ++ " hours" /\
    In setup_time ["0 hours"; "1 hours"; "2 hours"; "3 hours"; "4 hours"] /\
    (1 <= implementation_complexity r <= 5)%Z.
Proof.
  do 3 eexists.
  assert (Hrun : Sample.run Sample.engine Sample.analyst Sample.insights Sample.catalog
                 = (Returned ?[out], ?[tr'])) by (vm_compute; reflexivity).
  destruct (setup_time_of_ranked_tool Sample.cosine_1d Sample.float_str Sample.format_2f
              Sample.engine Sample.analyst Sample.insights Sample.catalog [] _ _
              DownstreamSample.flaky Sample.analyst [] _ _ Hrun
              (or_introl eq_refl) eq_refl)
    as (setup_time & Hguide & Htime & Hin & Hcx).
  exists setup_time. split; [exact Hrun|]. split; [left; reflexivity|].
  repeat split; try assumption; apply Hcx.
Defined.

Lemma learning_paths_one_per_tool_witness :
  (forall prompts prompt, exists e, DownstreamSample.failing prompts prompt = inr e) /\
  fst (create_learning_paths string DownstreamSample.loads DownstreamSample.failing
         Sample.analyst ["claude3"; "gpt4"] [])
  = [PathError "claude3" "Learning Path for claude3" "Connection error.";
     PathError "gpt4" "Learning Path for gpt4" "Connection error."].
Proof.
  assert (Hfail : forall prompts prompt,
             exists e, DownstreamSample.failing prompts prompt = inr e)
    by (intros; eexists; reflexivity).
  split; [exact Hfail|].
  destruct (learning_paths_one_per_tool string DownstreamSample.loads
              DownstreamSample.failing Sample.analyst ["claude3"; "gpt4"] [])
    as (paths & Hrun & _ & _ & Herr).
  specialize (Herr Hfail). rewrite Hrun. simpl fst.
  vm_compute in Hrun. injection Hrun as <-. reflexivity.
Defined.

Lemma discovery_feeds_two_tools_witness :
  exists out tr',
    Sample.run Sample.engine Sample.analyst Sample.insights
      (discover_relevant_tools Sample.analyst) = (Returned out, tr') /\
    Permutation (map tool_id out) ["gpt4"; "claude3"] /\
    text_calls tr' = (text_calls [] + 2)%nat.
Proof.
  destruct (discovery_feeds_two_tools Sample.cosine_1d Sample.float_str Sample.format_2f
              Sample.engine Sample.analyst Sample.insights [1] [])
    as (_ & _ & Hrank).
  apply Hrank; [reflexivity | discriminate | discriminate].
Defined.
